(** * ics.todo: the VTODO entity, its accessor contract and its registries

    A shallow embedding of [src/ics/todo.py].  Python objects become
    records, attribute assignment becomes record update, and a method
    that can raise returns a value of the error monad [res].

    Conventions of the embedding, all read off the source:

    - the semantics is Python 3: ordering a string, a datetime or
      [None] against [None] raises [TypeError] (the source itself flags
      the "py3 case when a name is None"), while the rich comparisons
      of [Arrow] answer [False] for an operand that is not a timestamp,
      also when [None] stands on the left and Python falls back on the
      reflected method of the [Arrow];
    - an [Arrow] timestamp and a [timedelta] are integers on one
      microsecond axis (an instant is read on the wall clock of its own
      timezone, counted from the epoch), [+] and [-] of the source are
      [Z.add] and [Z.sub], and a result outside the range of the
      datetime library is an [OverflowError];
    - truthiness follows Python: [None] is falsy, an [Arrow] is always
      truthy, a [timedelta] is truthy iff it is not zero, a string or a
      dict iff it is not empty, an integer iff it is not zero;
    - helpers imported from other modules of the package
      (ics.utils, ics.parse, ics.alarm, ics.component) are either
      fields of the class [Codecs] or definitions marked as modelled
      from the specification. *)

From stdpp Require Import base option list strings gmap.
From Stdlib Require Import ZArith Lia.

Local Open Scope Z_scope.

(** ** Exceptions and the error monad *)

Inductive exn : Type :=
| ValueError
| TypeError
| AttributeError
| KeyError
| NotImplementedError
| OverflowError
| LibraryError (origin : string).

Inductive res (A : Type) : Type :=
| Ok (a : A)
| Raise (e : exn).
Global Arguments Ok {A} a.
Global Arguments Raise {A} e.

Global Instance res_ret : MRet res := fun A a => Ok a.
Global Instance res_bind : MBind res := fun A B f m =>
  match m with
  | Ok a => f a
  | Raise e => Raise e
  end.
Global Instance res_fmap : FMap res := fun A B f m =>
  match m with
  | Ok a => Ok (f a)
  | Raise e => Raise e
  end.

Definition raises {A} (m : res A) : Prop := exists e, m = Raise e.

Definition is_ok {A} (m : res A) : bool :=
  match m with Ok _ => true | Raise _ => false end.

(** ** Values *)

(** [Arrow] instants and [timedelta] spans are both [Z], in
    microseconds. *)

(** The value carried by a property line: text when it comes from the
    tokenizer, an integer when an output producer stores one
    ([o_percent], [o_priority]). *)
Inductive scalar : Type :=
| SInt (n : Z)
| SStr (s : string).

Global Instance scalar_eq_dec : EqDecision scalar.
Proof. solve_decision. Defined.

Record ContentLine : Type := mkContentLine {
  cl_name : string;
  cl_params : gmap string (list string);
  cl_value : scalar
}.

(** [ContentLine(name, value=v)]: the parameters default to [{}]. *)
Definition ContentLine_ (name : string) (value : scalar) : ContentLine :=
  mkContentLine name ∅ value.

(** A container is a named list whose items are property lines, nested
    containers (the VALARM blocks of the input) or plain text (the
    rendered alarms that [o_alarm] appends). *)
Inductive item : Type :=
| ILine (l : ContentLine)
| IBlock (name : string) (body : list ContentLine)
| IText (s : string).

Record Container : Type := mkContainer {
  c_name : string;
  c_items : list item
}.

(** [container.append(x)] *)
Definition append (x : item) (c : Container) : Container :=
  mkContainer (c_name c) (c_items c ++ [x]).

(** An alarm is opaque here apart from its rendering [str(alarm)]. *)
Record Alarm : Type := mkAlarm { alarm_str : string }.

Global Instance Alarm_eq_dec : EqDecision Alarm.
Proof. solve_decision. Defined.
Global Instance Alarm_countable : Countable Alarm :=
  inj_countable' alarm_str mkAlarm
    (fun a => match a with mkAlarm _ => eq_refl end).

(** The [tz] mapping handed to [_from_container]: timezone identifier
    to (an abstract code of) its definition. *)
Abbreviation tzdict := (gmap string Z).

(** ** The entity *)

Record Todo : Type := mkTodo {
  _begin : option Z;
  _due_time : option Z;
  _duration : option Z;
  uid : scalar;
  completed : option Z;
  created : option Z;
  description : option string;
  location : option string;
  percent : option scalar;
  priority : option scalar;
  name : option string;
  url : option string;
  (* the alarms in the order an iteration visits them: the collection
     is a set after [__init__] and a list after extraction *)
  alarms : list Alarm;
  _unused : Container;
  (* [None]: the attribute does not exist (it is set by
     [_from_container] only). *)
  _classmethod_kwargs : option (gmap string tzdict)
}.

Definition with_begin (v : option Z) (self : Todo) : Todo :=
  mkTodo v (_due_time self) (_duration self) (uid self) (completed self)
         (created self) (description self) (location self) (percent self) (priority self)
         (name self) (url self) (alarms self) (_unused self) (_classmethod_kwargs self).
Definition with_due_time (v : option Z) (self : Todo) : Todo :=
  mkTodo (_begin self) v (_duration self) (uid self) (completed self)
         (created self) (description self) (location self) (percent self) (priority self)
         (name self) (url self) (alarms self) (_unused self) (_classmethod_kwargs self).
Definition with_duration (v : option Z) (self : Todo) : Todo :=
  mkTodo (_begin self) (_due_time self) v (uid self) (completed self)
         (created self) (description self) (location self) (percent self) (priority self)
         (name self) (url self) (alarms self) (_unused self) (_classmethod_kwargs self).
Definition with_uid (v : scalar) (self : Todo) : Todo :=
  mkTodo (_begin self) (_due_time self) (_duration self) v (completed self)
         (created self) (description self) (location self) (percent self) (priority self)
         (name self) (url self) (alarms self) (_unused self) (_classmethod_kwargs self).
Definition with_completed (v : option Z) (self : Todo) : Todo :=
  mkTodo (_begin self) (_due_time self) (_duration self) (uid self) v
         (created self) (description self) (location self) (percent self) (priority self)
         (name self) (url self) (alarms self) (_unused self) (_classmethod_kwargs self).
Definition with_created (v : option Z) (self : Todo) : Todo :=
  mkTodo (_begin self) (_due_time self) (_duration self) (uid self) (completed self)
         v (description self) (location self) (percent self) (priority self)
         (name self) (url self) (alarms self) (_unused self) (_classmethod_kwargs self).
Definition with_description (v : option string) (self : Todo) : Todo :=
  mkTodo (_begin self) (_due_time self) (_duration self) (uid self) (completed self)
         (created self) v (location self) (percent self) (priority self)
         (name self) (url self) (alarms self) (_unused self) (_classmethod_kwargs self).
Definition with_location (v : option string) (self : Todo) : Todo :=
  mkTodo (_begin self) (_due_time self) (_duration self) (uid self) (completed self)
         (created self) (description self) v (percent self) (priority self)
         (name self) (url self) (alarms self) (_unused self) (_classmethod_kwargs self).
Definition with_percent (v : option scalar) (self : Todo) : Todo :=
  mkTodo (_begin self) (_due_time self) (_duration self) (uid self) (completed self)
         (created self) (description self) (location self) v (priority self)
         (name self) (url self) (alarms self) (_unused self) (_classmethod_kwargs self).
Definition with_priority (v : option scalar) (self : Todo) : Todo :=
  mkTodo (_begin self) (_due_time self) (_duration self) (uid self) (completed self)
         (created self) (description self) (location self) (percent self) v
         (name self) (url self) (alarms self) (_unused self) (_classmethod_kwargs self).
Definition with_name (v : option string) (self : Todo) : Todo :=
  mkTodo (_begin self) (_due_time self) (_duration self) (uid self) (completed self)
         (created self) (description self) (location self) (percent self) (priority self)
         v (url self) (alarms self) (_unused self) (_classmethod_kwargs self).
Definition with_url (v : option string) (self : Todo) : Todo :=
  mkTodo (_begin self) (_due_time self) (_duration self) (uid self) (completed self)
         (created self) (description self) (location self) (percent self) (priority self)
         (name self) v (alarms self) (_unused self) (_classmethod_kwargs self).
Definition with_alarms (v : list Alarm) (self : Todo) : Todo :=
  mkTodo (_begin self) (_due_time self) (_duration self) (uid self) (completed self)
         (created self) (description self) (location self) (percent self) (priority self)
         (name self) (url self) v (_unused self) (_classmethod_kwargs self).
Definition with_unused (v : Container) (self : Todo) : Todo :=
  mkTodo (_begin self) (_due_time self) (_duration self) (uid self) (completed self)
         (created self) (description self) (location self) (percent self) (priority self)
         (name self) (url self) (alarms self) v (_classmethod_kwargs self).
Definition with_classmethod_kwargs (v : option (gmap string tzdict)) (self : Todo) : Todo :=
  mkTodo (_begin self) (_due_time self) (_duration self) (uid self) (completed self)
         (created self) (description self) (location self) (percent self) (priority self)
         (name self) (url self) (alarms self) (_unused self) v.

(** The Python values that reach the methods as arguments. *)
Inductive pyval : Type :=
| PNone
| PInt (n : Z)
| PStr (s : string)
| PDict (d : gmap string Z)
| PArrow (a : Z)
| PDatetime (a : Z)
| PTimedelta (d : Z)
| PTodo (t : Todo).

(** ** Truthiness *)

Definition truthy (v : pyval) : bool :=
  match v with
  | PNone => false
  | PInt n => negb (n =? 0)
  | PStr s => negb (String.eqb s "")
  | PDict d => negb (bool_decide (d = ∅))
  | PArrow _ | PDatetime _ | PTodo _ => true
  | PTimedelta d => negb (d =? 0)
  end.

(** [bool(x)] for an optional [Arrow]. *)
Definition truthy_arrow (x : option Z) : bool :=
  match x with Some _ => true | None => false end.

(** [bool(x)] for an optional [timedelta]: [timedelta(0)] is falsy. *)
Definition truthy_td (x : option Z) : bool :=
  match x with Some d => negb (d =? 0) | None => false end.

Definition truthy_str (x : option string) : bool :=
  match x with Some s => negb (String.eqb s "") | None => false end.

Definition truthy_scalar (x : option scalar) : bool :=
  match x with
  | Some (SInt n) => negb (n =? 0)
  | Some (SStr s) => negb (String.eqb s "")
  | None => false
  end.

(** ** Operators on optional operands (Python 3) *)

(** An ordering comparison whose operands are each an [Arrow] or
    [None]: the comparison methods of [Arrow] return [False] for an
    operand that is not a timestamp, on either side; [None] against
    [None] is not ordered. *)
Definition arrow_cmp (op : Z -> Z -> bool) (x y : option Z) : res bool :=
  match x, y with
  | Some a, Some b => Ok (op a b)
  | Some _, None | None, Some _ => Ok false
  | None, None => Raise TypeError
  end.
Definition arrow_lt := arrow_cmp Z.ltb.
Definition arrow_le := arrow_cmp Z.leb.
Definition arrow_gt := arrow_cmp Z.gtb.
Definition arrow_ge := arrow_cmp Z.geb.

(** An ordering comparison of an optional [Arrow] with a datetime:
    [None] and a datetime are not ordered. *)
Definition datetime_cmp (op : Z -> Z -> bool) (x : option Z) (d : Z) : res bool :=
  match x with
  | Some a => Ok (op a d)
  | None => Raise TypeError
  end.

Definition str_cmp (op : string -> string -> bool) (x y : option string) : res bool :=
  match x, y with
  | Some a, Some b => Ok (op a b)
  | _, _ => Raise TypeError
  end.
Definition str_lt := str_cmp String.ltb.
Definition str_le := str_cmp String.leb.
Definition str_gt := str_cmp (fun a b => String.ltb b a).
Definition str_ge := str_cmp (fun a b => String.leb b a).

(** The instants of the datetime library: 0001-01-01T00:00:00 to
    9999-12-31T23:59:59.999999, in microseconds from the epoch. *)
Definition datetime_min : Z := -62135596800000000.
Definition datetime_max : Z := 253402300799999999.
Definition in_datetime_range (a : Z) : bool :=
  (datetime_min <=? a) && (a <=? datetime_max).

(** [x + d] for an optional instant and an optional span: a sum outside
    the datetime range overflows; [None + d] is a [TypeError]; an
    [Arrow] refuses an operand that is not a span. *)
Definition arrow_add (x : option Z) (d : option Z) : res Z :=
  match x, d with
  | Some a, Some k =>
      if in_datetime_range (a + k) then Ok (a + k) else Raise OverflowError
  | Some _, None => Raise NotImplementedError
  | None, _ => Raise TypeError
  end.

(** [x - y] for two optional instants: an [Arrow] refuses to subtract
    what is neither a span nor a timestamp. *)
Definition arrow_sub (x y : option Z) : res Z :=
  match x, y with
  | Some a, Some b => Ok (a - b)
  | Some _, None => Raise NotImplementedError
  | None, _ => Raise TypeError
  end.

(** ** [datetime.timedelta] *)

Definition timedelta_unit (k : string) : option Z :=
  if String.eqb k "microseconds" then Some 1
  else if String.eqb k "milliseconds" then Some 1000
  else if String.eqb k "seconds" then Some 1000000
  else if String.eqb k "minutes" then Some 60000000
  else if String.eqb k "hours" then Some 3600000000
  else if String.eqb k "days" then Some 86400000000
  else if String.eqb k "weeks" then Some 604800000000
  else None.

(** The spans of the datetime library: -999999999 days to 999999999
    days, 23:59:59.999999, in microseconds. *)
Definition timedelta_min : Z := -86399999913600000000.
Definition timedelta_max : Z := 86399999999999999999.

(** The constructor of a span from its length: a length outside the
    range is an [OverflowError]. *)
Definition timedelta_new (us : Z) : res Z :=
  if (timedelta_min <=? us) && (us <=? timedelta_max) then Ok us
  else Raise OverflowError.

(** The sum of the keyword arguments of [timedelta]: an unknown keyword
    is a [TypeError]. *)
Definition timedelta_sum (kwargs : gmap string Z) : res Z :=
  map_fold (fun k v acc =>
              a ← acc;
              match timedelta_unit k with
              | Some u => Ok (a + u * v)
              | None => Raise TypeError
              end) (Ok 0) kwargs.

(** [timedelta( **kwargs )] *)
Definition timedelta_kwargs (kwargs : gmap string Z) : res Z :=
  us ← timedelta_sum kwargs; timedelta_new us.

(** [timedelta(value)]: the first positional argument counts days. *)
Definition timedelta_days (value : pyval) : res Z :=
  match value with
  | PInt n => timedelta_new (86400000000 * n)
  | _ => Raise TypeError
  end.

(** ** External collaborators *)

Class Codecs : Type := {
  (* [arrow.get] on a value that is neither [None] nor an [Arrow] *)
  arrow_get : pyval -> res Z;
  (* ics.utils *)
  iso_to_arrow : ContentLine -> tzdict -> res Z;
  arrow_to_iso : Z -> string;
  parse_duration : scalar -> res Z;
  timedelta_to_duration : Z -> string;
  unescape_string : scalar -> res string;
  escape_string : string -> string;
  uid_gen : string;
  (* [arrow.now()] *)
  now : Z;
  (* [AlarmFactory.get_type_from_container(x)._from_container(x)] *)
  alarm_from_container : item -> res Alarm
}.

(** Modelled from the spec: [get_arrow] of ics.utils is not among the
    sources.  §4.1 has the setters "coerce value to a timestamp or
    absent": an absent value stays absent, a timestamp is kept, and
    everything else is handed to the arrow library. *)
Definition get_arrow `{Codecs} (value : pyval) : res (option Z) :=
  match value with
  | PNone => Ok None
  | PArrow a => Ok (Some a)
  | v => Some <$> arrow_get v
  end.

(** ** Properties of [Todo] *)

Definition begin (self : Todo) : option Z := _begin self.

Definition begin_setter `{Codecs} (self : Todo) (value : pyval) : res Todo :=
  value ← get_arrow value;
  late ← (if truthy_arrow value then
            if truthy_arrow (_due_time self) then arrow_gt value (_due_time self)
            else Ok false
          else Ok false);
  if late : bool then Raise ValueError
  else Ok (with_begin value self).

Definition due (self : Todo) : res (option Z) :=
  if truthy_td (_duration self) then
    Some <$> arrow_add (begin self) (_duration self)
  else if truthy_arrow (_due_time self) then
    Ok (_due_time self)
  else Ok None.

Definition due_setter `{Codecs} (self : Todo) (value : pyval) : res Todo :=
  value ← get_arrow value;
  early ← (if truthy_arrow value then arrow_lt value (_begin self) else Ok false);
  if early : bool then Raise ValueError
  else
    let self := with_due_time value self in
    Ok (if truthy_arrow value then with_duration None self else self).

Definition duration (self : Todo) : res (option Z) :=
  if truthy_td (_duration self) then Ok (_duration self)
  else
    d ← due self;
    if truthy_arrow d then
      d ← due self;
      Some <$> arrow_sub d (begin self)
    else Ok None.

Definition duration_setter (self : Todo) (value : pyval) : res Todo :=
  value ← match value with
          | PDict d => Some <$> timedelta_kwargs d
          | PTimedelta d => Ok (Some d)
          | PNone => Ok None
          | v => Some <$> timedelta_days v
          end;
  let self := with_duration value self in
  Ok (if truthy_td value then with_due_time None self else self).

(** ** Construction *)

Record init_args : Type := mkArgs {
  a_uid : option string;
  a_completed : pyval;
  a_created : pyval;
  a_description : option string;
  a_begin : pyval;
  a_location : option string;
  a_percent : option scalar;
  a_priority : option scalar;
  a_name : option string;
  a_url : option string;
  a_due : pyval;
  a_duration : pyval;
  a_alarms : option (list Alarm)
}.

(** Every keyword argument left at its default [None]. *)
Definition no_args : init_args :=
  mkArgs None PNone PNone None PNone None None None None None PNone PNone None.

(** The object before the body of [__init__] has assigned anything
    but the three private time fields. *)
Definition fresh : Todo :=
  mkTodo None None None (SStr "") None None None None None None None None []
         (mkContainer "" []) None.

Definition __init__ `{Codecs} (a : init_args) : res Todo :=
  let self := fresh in
  let self := with_uid (SStr (if truthy_str (a_uid a) then default "" (a_uid a) else uid_gen)) self in
  completed ← get_arrow (a_completed a);
  let self := with_completed completed self in
  created ← get_arrow (a_created a);
  let self := with_created created self in
  let self := with_description (a_description a) self in
  self ← begin_setter self (a_begin a);
  let self := with_location (a_location a) self in
  let self := with_percent (a_percent a) self in
  let self := with_priority (a_priority a) self in
  let self := with_name (a_name a) self in
  let self := with_url (a_url a) self in
  let self := with_alarms [] self in
  let self := with_unused (mkContainer "VTODO" []) self in
  self ← (if truthy (a_duration a) && truthy (a_due a) then Raise ValueError
          else if truthy (a_duration a) then
            if negb (truthy (a_begin a)) then Raise ValueError
            else duration_setter self (a_duration a)
          else if truthy (a_due a) then due_setter self (a_due a)
          else Ok self);
  (* [self.alarms.update(set(alarms))]: the members of the two sets,
     each once, in the order the set yields them *)
  Ok (match a_alarms a with
      | Some l =>
          with_alarms
            (elements (list_to_set (alarms self) ∪ list_to_set l : gset Alarm)) self
      | None => self
      end).

(** ** Interval tests *)

Definition starts_within (self : Todo) (other : pyval) : res bool :=
  match other with
  | PTodo other =>
      outside ← (if negb (truthy_arrow (begin self)) then Ok true
                 else if negb (truthy_arrow (begin other)) then Ok true
                 else d ← due other; Ok (negb (truthy_arrow d)));
      if outside : bool then Ok false
      else
        after ← arrow_le (begin other) (begin self);
        if after : bool then d ← due other; arrow_le (begin self) d
        else Ok false
  | _ => Raise NotImplementedError
  end.

Definition due_within (self : Todo) (other : pyval) : res bool :=
  match other with
  | PTodo other =>
      outside ← (if negb (truthy_arrow (begin self)) then Ok true
                 else if negb (truthy_arrow (begin other)) then Ok true
                 else d ← due other; Ok (negb (truthy_arrow d)));
      if outside : bool then Ok false
      else
        sd ← due self;
        after ← arrow_le (begin other) sd;
        if after : bool then d ← due other; arrow_le sd d
        else Ok false
  | _ => Raise NotImplementedError
  end.

Definition intersects (self : Todo) (other : pyval) : res bool :=
  match other with
  | PTodo o =>
      r ← starts_within self other;
      if r : bool then Ok true else
      r ← due_within self other;
      if r : bool then Ok true else
      r ← starts_within o (PTodo self);
      if r : bool then Ok true else
      due_within o (PTodo self)
  | _ => Raise NotImplementedError
  end.

(** ** Ordering *)

(** [self.due is None and other.due is None] *)
Definition both_due_none (self other : Todo) : res bool :=
  sd ← due self;
  match sd with
  | None => od ← due other; Ok (bool_decide (od = None))
  | Some _ => Ok false
  end.

Definition __lt__ (self : Todo) (other : pyval) : res bool :=
  match other with
  | PTodo other =>
      nodue ← both_due_none self other;
      if nodue : bool then
        match name self, name other with
        | None, None => Ok false
        | None, _ => Ok true
        | _, None => Ok false
        | _, _ => str_lt (name self) (name other)
        end
      else sd ← due self; od ← due other; arrow_lt sd od
  | PDatetime d => sd ← due self; datetime_cmp Z.ltb sd d
  | _ => Raise NotImplementedError
  end.

Definition __le__ (self : Todo) (other : pyval) : res bool :=
  match other with
  | PTodo other =>
      nodue ← both_due_none self other;
      if nodue : bool then
        match name self, name other with
        | None, None => Ok true
        | None, _ => Ok true
        | _, None => Ok false
        | _, _ => str_le (name self) (name other)
        end
      else sd ← due self; od ← due other; arrow_le sd od
  | PDatetime d => sd ← due self; datetime_cmp Z.leb sd d
  | _ => Raise NotImplementedError
  end.

Definition __gt__ (self : Todo) (other : pyval) : res bool :=
  match other with
  | PTodo other =>
      nodue ← both_due_none self other;
      if nodue : bool then str_gt (name self) (name other)
      else sd ← due self; od ← due other; arrow_gt sd od
  | PDatetime d => sd ← due self; datetime_cmp Z.gtb sd d
  | _ => Raise NotImplementedError
  end.

Definition __ge__ (self : Todo) (other : pyval) : res bool :=
  match other with
  | PTodo other =>
      nodue ← both_due_none self other;
      if nodue : bool then str_ge (name self) (name other)
      else sd ← due self; od ← due other; arrow_ge sd od
  | PDatetime d => sd ← due self; datetime_cmp Z.geb sd d
  | _ => Raise NotImplementedError
  end.

Definition __eq__ (self : Todo) (other : pyval) : res bool :=
  match other with
  | PTodo other => Ok (bool_decide (uid self = uid other))
  | _ => Raise NotImplementedError
  end.

Definition __ne__ (self : Todo) (other : pyval) : res bool :=
  match other with
  | PTodo other => Ok (negb (bool_decide (uid self = uid other)))
  | _ => Raise NotImplementedError
  end.

Definition time_equals (self other : Todo) : res bool :=
  if negb (truthy_arrow (begin self)) || negb (truthy_arrow (begin other)) then
    sd ← due self;
    if truthy_arrow sd then
      od ← due other;
      if truthy_arrow od then
        sd ← due self; od ← due other; Ok (bool_decide (sd = od))
      else Ok false
    else Ok false
  else
    sd ← due self;
    nodue ← (if negb (truthy_arrow sd) then Ok true
             else od ← due other; Ok (negb (truthy_arrow od)));
    if nodue : bool then
      if truthy_arrow (begin self) && truthy_arrow (begin other) then
        Ok (bool_decide (begin self = begin other))
      else Ok false
    else if bool_decide (begin self = begin other) then
      sd ← due self; od ← due other; Ok (bool_decide (sd = od))
    else Ok false.

(** [copy.copy] with a fresh container and a fresh alarm set: in a
    value model the clone is the record itself. *)
Definition clone (self : Todo) : Todo := self.

(** ** Inputs: the extraction handlers *)

Inductive handler : Type :=
| Single (f : Todo -> option ContentLine -> res Todo)
| Multiple (f : Todo -> list item -> res Todo).

Record extractor : Type := mkExtractor {
  e_type : string;
  e_required : bool;
  e_function : handler
}.

(** [todo._classmethod_kwargs['tz']] *)
Definition classmethod_tz (todo : Todo) : res tzdict :=
  match _classmethod_kwargs todo with
  | None => Raise AttributeError
  | Some kwargs =>
      match kwargs !! "tz" with
      | Some tz => Ok tz
      | None => Raise KeyError
      end
  end.

(** [line.value]: an attribute access, which fails on [None]. *)
Definition value_of (line : option ContentLine) : res scalar :=
  match line with
  | Some l => Ok (cl_value l)
  | None => Raise AttributeError
  end.

(** [v < n] and [v > n] for a line value and an integer literal: text
    and integers are not ordered. *)
Definition scalar_lt (v : scalar) (n : Z) : res bool :=
  match v with
  | SInt k => Ok (k <? n)
  | SStr _ => Raise TypeError
  end.
Definition scalar_gt (v : scalar) (n : Z) : res bool :=
  match v with
  | SInt k => Ok (n <? k)
  | SStr _ => Raise TypeError
  end.

Module Inputs.
Section handlers.
Context `{Codecs}.

Definition dtstamp (todo : Todo) (line : option ContentLine) : res Todo :=
  match line with
  | Some l =>
      tz_dict ← classmethod_tz todo;
      a ← iso_to_arrow l tz_dict;
      Ok (with_created (Some a) todo)
  | None => Ok todo
  end.

Definition uid (todo : Todo) (line : option ContentLine) : res Todo :=
  match line with
  | Some l => Ok (with_uid (cl_value l) todo)
  | None => Ok todo
  end.

Definition completed (todo : Todo) (line : option ContentLine) : res Todo :=
  match line with
  | Some l =>
      tz_dict ← classmethod_tz todo;
      a ← iso_to_arrow l tz_dict;
      Ok (with_completed (Some a) todo)
  | None => Ok todo
  end.

(** [unescape_string(line.value) if line else None] *)
Definition unescaped (line : option ContentLine) : res (option string) :=
  match line with
  | Some l => Some <$> unescape_string (cl_value l)
  | None => Ok None
  end.

Definition description (todo : Todo) (line : option ContentLine) : res Todo :=
  v ← unescaped line; Ok (with_description v todo).

Definition start (todo : Todo) (line : option ContentLine) : res Todo :=
  match line with
  | Some l =>
      tz_dict ← classmethod_tz todo;
      a ← iso_to_arrow l tz_dict;
      begin_setter todo (PArrow a)
  | None => Ok todo
  end.

Definition location (todo : Todo) (line : option ContentLine) : res Todo :=
  v ← unescaped line; Ok (with_location v todo).

Definition percent (todo : Todo) (line : option ContentLine) : res Todo :=
  v ← value_of line;
  low ← scalar_lt v 0;
  bad ← (if low : bool then Ok true else v ← value_of line; scalar_gt v 100);
  if bad : bool then Raise ValueError
  else Ok (with_percent (cl_value <$> line) todo).

Definition priority (todo : Todo) (line : option ContentLine) : res Todo :=
  v ← value_of line;
  low ← scalar_lt v 0;
  bad ← (if low : bool then Ok true else v ← value_of line; scalar_gt v 9);
  if bad : bool then Raise ValueError
  else Ok (with_priority (cl_value <$> line) todo).

Definition summary (todo : Todo) (line : option ContentLine) : res Todo :=
  v ← unescaped line; Ok (with_name v todo).

Definition url (todo : Todo) (line : option ContentLine) : res Todo :=
  v ← unescaped line; Ok (with_url v todo).

Definition due (todo : Todo) (line : option ContentLine) : res Todo :=
  match line with
  | Some l =>
      if truthy_td (_duration todo) then Raise ValueError
      else
        tz_dict ← classmethod_tz todo;
        a ← iso_to_arrow l tz_dict;
        Ok (with_due_time (Some a) todo)
  | None => Ok todo
  end.

Definition duration (todo : Todo) (line : option ContentLine) : res Todo :=
  match line with
  | Some l =>
      if truthy_arrow (_due_time todo) then Raise ValueError
      else
        d ← parse_duration (cl_value l);
        Ok (with_duration (Some d) todo)
  | None => Ok todo
  end.

Definition alarms (todo : Todo) (lines : list item) : res Todo :=
  l ← mapM alarm_from_container lines;
  Ok (with_alarms l todo).

(** The registry, in the order of the decorators in the file. *)
Definition _EXTRACTORS : list extractor :=
  [ mkExtractor "DTSTAMP" true (Single dtstamp);
    mkExtractor "UID" true (Single uid);
    mkExtractor "COMPLETED" false (Single completed);
    mkExtractor "DESCRIPTION" false (Single description);
    mkExtractor "DTSTART" false (Single start);
    mkExtractor "LOCATION" false (Single location);
    mkExtractor "PERCENT-COMPLETE" false (Single percent);
    mkExtractor "PRIORITY" false (Single priority);
    mkExtractor "SUMMARY" false (Single summary);
    mkExtractor "URL" false (Single url);
    mkExtractor "DUE" false (Single due);
    mkExtractor "DURATION" false (Single duration);
    mkExtractor "VALARM" false (Multiple alarms) ].
End handlers.
End Inputs.

(** ** Outputs: the producers *)

Module Outputs.
Section producers.
Context `{Codecs}.

Definition o_uid (todo : Todo) (container : Container) : Container :=
  let uid := if truthy_scalar (Some (uid todo)) then uid todo else SStr uid_gen in
  append (ILine (ContentLine_ "UID" uid)) container.

Definition o_completed (todo : Todo) (container : Container) : Container :=
  let instant := match completed todo with Some a => a | None => now end in
  append (ILine (ContentLine_ "COMPLETED" (SStr (arrow_to_iso instant)))) container.

Definition o_created (todo : Todo) (container : Container) : Container :=
  let instant := match created todo with Some a => a | None => now end in
  append (ILine (ContentLine_ "DTSTAMP" (SStr (arrow_to_iso instant)))) container.

Definition o_description (todo : Todo) (container : Container) : Container :=
  match description todo with
  | Some s =>
      if truthy_str (Some s) then
        append (ILine (ContentLine_ "DESCRIPTION" (SStr (escape_string s)))) container
      else container
  | None => container
  end.

Definition o_start (todo : Todo) (container : Container) : Container :=
  match begin todo with
  | Some a => append (ILine (ContentLine_ "DTSTART" (SStr (arrow_to_iso a)))) container
  | None => container
  end.

Definition o_location (todo : Todo) (container : Container) : Container :=
  match location todo with
  | Some s =>
      if truthy_str (Some s) then
        append (ILine (ContentLine_ "LOCATION" (SStr (escape_string s)))) container
      else container
  | None => container
  end.

Definition o_percent (todo : Todo) (container : Container) : Container :=
  match percent todo with
  | Some v =>
      if truthy_scalar (Some v) then
        append (ILine (ContentLine_ "PERCENT-COMPLETE" v)) container
      else container
  | None => container
  end.

Definition o_priority (todo : Todo) (container : Container) : Container :=
  match priority todo with
  | Some v =>
      if truthy_scalar (Some v) then
        append (ILine (ContentLine_ "PRIORITY" v)) container
      else container
  | None => container
  end.

Definition o_summary (todo : Todo) (container : Container) : Container :=
  match name todo with
  | Some s =>
      if truthy_str (Some s) then
        append (ILine (ContentLine_ "SUMMARY" (SStr (escape_string s)))) container
      else container
  | None => container
  end.

Definition o_url (todo : Todo) (container : Container) : Container :=
  match url todo with
  | Some s =>
      if truthy_str (Some s) then
        append (ILine (ContentLine_ "URL" (SStr (escape_string s)))) container
      else container
  | None => container
  end.

Definition o_due (todo : Todo) (container : Container) : Container :=
  match _due_time todo with
  | Some a => append (ILine (ContentLine_ "DUE" (SStr (arrow_to_iso a)))) container
  | None => container
  end.

Definition o_duration (todo : Todo) (container : Container) : Container :=
  match _duration todo with
  | Some d =>
      if truthy_td (Some d) && truthy_arrow (begin todo) then
        let representation := timedelta_to_duration d in
        append (ILine (ContentLine_ "DURATION" (SStr representation))) container
      else container
  | None => container
  end.

Definition o_alarm (todo : Todo) (container : Container) : Container :=
  foldl (fun c alarm => append (IText (alarm_str alarm)) c) container (alarms todo).

(** The registry, in the order of the decorators in the file. *)
Definition _OUTPUTS : list (Todo -> Container -> Container) :=
  [ o_uid; o_completed; o_created; o_description; o_start; o_location;
    o_percent; o_priority; o_summary; o_url; o_due; o_duration; o_alarm ].
End producers.
End Outputs.

(** ** The registry drivers *)

Definition line_named (tag : string) (i : item) : option ContentLine :=
  match i with
  | ILine l => if String.eqb (cl_name l) tag then Some l else None
  | _ => None
  end.

Definition block_named (tag : string) (i : item) : option item :=
  match i with
  | IBlock n _ => if String.eqb n tag then Some i else None
  | _ => None
  end.

(** The lines (resp. nested blocks) of the container that carry the
    tag, in input order. *)
Definition get_lines (c : Container) (tag : string) : list ContentLine :=
  omap (line_named tag) (c_items c).
Definition get_blocks (c : Container) (tag : string) : list item :=
  omap (block_named tag) (c_items c).

(** Modelled from the spec: the driver lives in ics.component, which is
    not among the sources.  §4.2: a handler receives "either the single
    matching line (most tags) or the full list of matching lines (for
    repeatable tags)"; a required tag with no matching line fails with
    MissingProperty.  The handlers of the source test [if line], so a
    tag without a line reaches its handler as [None].  The spec leaves
    open what happens to a non-repeatable tag that occurs twice; such
    an input is rejected here. *)
Definition apply_extractor (e : extractor) (c : Container) (todo : Todo) : res Todo :=
  match e_function e with
  | Single f =>
      match get_lines c (e_type e) with
      | [] => if e_required e then Raise ValueError else f todo None
      | [l] => f todo (Some l)
      | _ => Raise ValueError
      end
  | Multiple f =>
      match get_blocks c (e_type e) with
      | [] => if e_required e then Raise ValueError else f todo []
      | ls => f todo ls
      end
  end.

Fixpoint run_extractors (es : list extractor) (c : Container) (todo : Todo) : res Todo :=
  match es with
  | [] => Ok todo
  | e :: es => todo ← apply_extractor e c todo; run_extractors es c todo
  end.

(** An item is claimed when a registered handler consumes its tag. *)
Definition claimed (es : list extractor) (i : item) : bool :=
  existsb (fun e =>
             match e_function e with
             | Single _ => bool_decide (is_Some (line_named (e_type e) i))
             | Multiple _ => bool_decide (is_Some (block_named (e_type e) i))
             end) es.

(** Modelled from the spec (§4.2): the handlers run "in a fixed,
    registration-defined order", and the "lines not claimed by any
    handler are appended, in original order, to the entity's [unused]
    sequence". *)
Definition _populate `{Codecs} (todo : Todo) (c : Container) : res Todo :=
  todo ← run_extractors Inputs._EXTRACTORS c todo;
  Ok (with_unused
        (mkContainer (c_name c)
           (List.filter (fun i => negb (claimed Inputs._EXTRACTORS i)) (c_items c)))
        todo).

(** Modelled from the spec (§3 Lifecycle, §4.2): extraction builds a
    blank entity, records the keyword arguments of the call (the [tz]
    mapping among them) and populates it. *)
Definition _from_container `{Codecs}
    (c : Container) (kwargs : gmap string tzdict) : res Todo :=
  k ← __init__ no_args;
  _populate (with_classmethod_kwargs (Some kwargs) k) c.

(** Modelled from the spec (§4.3): the producers are "applied in
    registration order to an empty output container"; afterwards "the
    preserved [unused] lines are appended verbatim, in their original
    order". *)
Definition produced `{Codecs} (todo : Todo) : Container :=
  foldl (fun c o => o todo c) (mkContainer "VTODO" []) Outputs._OUTPUTS.

Definition serialize `{Codecs} (todo : Todo) : Container :=
  let c := produced todo in
  mkContainer (c_name c) (c_items c ++ c_items (_unused todo)).

(** The number of lines of a container that carry a tag. *)
Definition count_tag (tag : string) (c : Container) : nat :=
  length (get_lines c tag).

(** ** The entity as a state machine *)

(** Assignment to one of the plain attributes. *)
Inductive attr : Type :=
| AUid (v : scalar)
| ACompleted (v : option Z)
| ACreated (v : option Z)
| ADescription (v : option string)
| ALocation (v : option string)
| APercent (v : option scalar)
| APriority (v : option scalar)
| AName (v : option string)
| AUrl (v : option string)
| AAlarms (v : list Alarm).

Definition assign (a : attr) (self : Todo) : Todo :=
  match a with
  | AUid v => with_uid v self
  | ACompleted v => with_completed v self
  | ACreated v => with_created v self
  | ADescription v => with_description v self
  | ALocation v => with_location v self
  | APercent v => with_percent v self
  | APriority v => with_priority v self
  | AName v => with_name v self
  | AUrl v => with_url v self
  | AAlarms v => with_alarms v self
  end.

(** One mutation of an entity through its accessor contract or through
    the extraction registry.  An operation that raises is no step: the
    setters and the handlers raise before they assign. *)
Inductive step `{Codecs} : Todo -> Todo -> Prop :=
| step_begin t v t' : begin_setter t v = Ok t' -> step t t'
| step_due t v t' : due_setter t v = Ok t' -> step t t'
| step_duration t v t' : duration_setter t v = Ok t' -> step t t'
| step_assign t a : step t (assign a t)
| step_kwargs t kw : step t (with_classmethod_kwargs (Some kw) t)
| step_extract t e c t' :
    e ∈ Inputs._EXTRACTORS -> apply_extractor e c t = Ok t' -> step t t'
| step_populate t c t' : _populate t c = Ok t' -> step t t'.

(** The entities a program can hold: built by the constructor, then
    mutated step by step. *)
Inductive reachable `{Codecs} : Todo -> Prop :=
| reach_init a t : __init__ a = Ok t -> reachable t
| reach_step t t' : reachable t -> step t t' -> reachable t'.

(** The explicit due time and a duration that counts as present (one
    that is truthy) exclude each other. *)
Definition exclusive (t : Todo) : Prop :=
  truthy_td (_duration t) = true -> _due_time t = None.

(** The claim of the data model: at most one of the two fields is not
    [None]. *)
Definition at_most_one (t : Todo) : Prop :=
  _due_time t = None \/ _duration t = None.

(** Every field but [_begin] is the same. *)
Definition same_but_begin (t t' : Todo) : Prop :=
  _due_time t' = _due_time t /\ _duration t' = _duration t /\
  uid t' = uid t /\ completed t' = completed t /\ created t' = created t /\
  description t' = description t /\ location t' = location t /\
  percent t' = percent t /\ priority t' = priority t /\
  name t' = name t /\ url t' = url t /\ alarms t' = alarms t /\
  _unused t' = _unused t /\ _classmethod_kwargs t' = _classmethod_kwargs t.

(** ** A small instance of the collaborators

    Instants are written as integers: [arrow.get] reads an integer as
    seconds since the epoch, and the ISO codec of this instance reads a
    line whose value is an integer as that instant. *)
Definition toy_codecs : Codecs := {|
  arrow_get v :=
    match v with
    | PInt n => Ok (1000000 * n)
    | PDatetime a => Ok a
    | _ => Raise (LibraryError "arrow.get")
    end;
  iso_to_arrow l _ :=
    match cl_value l with
    | SInt n => Ok n
    | SStr _ => Raise (LibraryError "iso_to_arrow")
    end;
  arrow_to_iso a := if a <? 0 then "-" else "+";
  parse_duration v :=
    match v with
    | SInt n => Ok n
    | SStr _ => Raise (LibraryError "parse_duration")
    end;
  timedelta_to_duration d := if d <? 0 then "-P" else "P";
  unescape_string v :=
    match v with
    | SStr s => Ok s
    | SInt _ => Raise AttributeError
    end;
  escape_string s := s;
  uid_gen := "generated@host";
  now := 0;
  alarm_from_container i :=
    match i with
    | IBlock n _ => Ok (mkAlarm n)
    | _ => Raise AttributeError
    end
|}.

(** [Todo(begin=b, due=d)] and [Todo(begin=b)] as argument records. *)
Definition args_begin_due (b d : pyval) : init_args :=
  mkArgs None PNone PNone None b None None None None None d PNone None.
Definition args_begin_due_duration (b d k : pyval) : init_args :=
  mkArgs None PNone PNone None b None None None None None d k None.

(** A handler keeps a property of the entity when every successful
    run carries it over. *)
Definition handler_keeps (P : Todo -> Prop) (h : handler) : Prop :=
  match h with
  | Single f => forall t l t', f t l = Ok t' -> P t -> P t'
  | Multiple f => forall t ls t', f t ls = Ok t' -> P t -> P t'
  end.

(** The container has a property line with the tag. *)
Definition has_line (tag : string) (c : Container) : Prop :=
  exists l, ILine l ∈ c_items c /\ cl_name l = tag.

(** The blank entity that extraction starts from: [cls()] with the
    keyword arguments of the call attached. *)
Definition blank `{Codecs} (kwargs : gmap string tzdict) : Todo :=
  with_classmethod_kwargs (Some kwargs)
    (with_unused (mkContainer "VTODO" []) (with_uid (SStr uid_gen) fresh)).

(** The entities a program obtains through the constructor, the three
    setters and plain attribute assignment alone, without the
    extraction handlers. *)
Inductive accessible `{Codecs} : Todo -> Prop :=
| acc_init a t : __init__ a = Ok t -> accessible t
| acc_begin t v t' : accessible t -> begin_setter t v = Ok t' -> accessible t'
| acc_due t v t' : accessible t -> due_setter t v = Ok t' -> accessible t'
| acc_duration t v t' : accessible t -> duration_setter t v = Ok t' -> accessible t'
| acc_assign t a : accessible t -> accessible (assign a t).

(** A stored begin is not after a stored due time. *)
Definition begin_before_due_time (t : Todo) : Prop :=
  forall b d, _begin t = Some b -> _due_time t = Some d -> b <= d.

(** The tag of an item that is a property line. *)
Definition line_tag (i : item) : option string :=
  match i with
  | ILine l => Some (cl_name l)
  | _ => None
  end.

(** The text of an item that is plain text. *)
Definition item_text (i : item) : option string :=
  match i with
  | IText s => Some s
  | _ => None
  end.

(** * Properties *)

(** ** Reasoning in the error monad *)

Lemma bind_ok {A B} (m : res A) (f : A -> res B) (b : B) :
  m ≫= f = Ok b -> exists a, m = Ok a /\ f a = Ok b.
Proof. destruct m as [a|e]; simpl; [eauto | discriminate]. Qed.

Lemma bind_raise {A B} (m : res A) (f : A -> res B) (e : exn) :
  m = Raise e -> m ≫= f = Raise e.
Proof. intros ->. reflexivity. Qed.

Lemma fmap_ok {A B} (f : A -> B) (m : res A) (b : B) :
  f <$> m = Ok b -> exists a, m = Ok a /\ b = f a.
Proof. destruct m as [a|e]; simpl; [|discriminate]. intros [= <-]. eauto. Qed.

Lemma raises_bind_l {A B} (m : res A) (f : A -> res B) :
  raises m -> raises (m ≫= f).
Proof. intros [e ->]. exists e. reflexivity. Qed.

Lemma raises_bind_r {A B} (m : res A) (f : A -> res B) :
  (forall a, raises (f a)) -> raises (m ≫= f).
Proof. intros Hf. destruct m as [a|e]; simpl; [apply Hf | eexists; reflexivity]. Qed.

Lemma raises_not_ok {A} (m : res A) (a : A) : raises m -> m <> Ok a.
Proof. intros [e ->]. discriminate. Qed.

(** Splits the scrutinees of a successful computation, one at a time. *)
Ltac ok_cases H :=
  unfold mbind, res_bind, fmap, res_fmap, mret, res_ret in H;
  repeat (simpl in H;
          match type of H with
          | Raise _ = Ok _ => discriminate H
          | context [match ?x with _ => _ end] => destruct x eqn:?
          | context [if ?x then _ else _] => destruct x eqn:?
          end);
  simpl in H; try discriminate H.

(** ** The time fields under the setters *)

Lemma get_arrow_none `{Codecs} : get_arrow PNone = Ok None.
Proof. reflexivity. Qed.

Lemma get_arrow_arrow `{Codecs} (a : Z) : get_arrow (PArrow a) = Ok (Some a).
Proof. reflexivity. Qed.

Lemma begin_setter_ok `{Codecs} (t t' : Todo) (v : pyval) :
  begin_setter t v = Ok t' ->
  exists cv, get_arrow v = Ok cv /\ t' = with_begin cv t.
Proof.
  unfold begin_setter. intros Hs.
  apply bind_ok in Hs as (cv & Hcv & Hs). exists cv. split; [exact Hcv|].
  ok_cases Hs; congruence.
Qed.

Lemma due_setter_ok `{Codecs} (t t' : Todo) (v : pyval) :
  due_setter t v = Ok t' ->
  exists cv, get_arrow v = Ok cv /\
    t' = (if truthy_arrow cv then with_duration None (with_due_time cv t)
          else with_due_time cv t).
Proof.
  unfold due_setter. intros Hs.
  apply bind_ok in Hs as (cv & Hcv & Hs). exists cv. split; [exact Hcv|].
  apply bind_ok in Hs as (early & _ & Hs).
  destruct early; [discriminate|]. congruence.
Qed.

Lemma duration_setter_ok (t t' : Todo) (v : pyval) :
  duration_setter t v = Ok t' ->
  exists cv,
    t' = (if truthy_td cv then with_due_time None (with_duration cv t)
          else with_duration cv t).
Proof.
  unfold duration_setter. intros Hs.
  apply bind_ok in Hs as (cv & _ & Hs). exists cv. congruence.
Qed.

(** Setting [due] to a value that is not [None] clears the duration. *)
Lemma due_setter_clears_duration `{Codecs} (t t' : Todo) (v : pyval) (x : Z) :
  get_arrow v = Ok (Some x) -> due_setter t v = Ok t' ->
  _due_time t' = Some x /\ _duration t' = None.
Proof.
  intros Hv Hs. apply due_setter_ok in Hs as (cv & Hcv & ->).
  rewrite Hv in Hcv. injection Hcv as <-. simpl. auto.
Qed.

(** Setting [duration] to a span that is not zero clears the due time. *)
Lemma duration_setter_clears_due_time (t t' : Todo) (d : Z) :
  d <> 0 -> duration_setter t (PTimedelta d) = Ok t' ->
  _duration t' = Some d /\ _due_time t' = None.
Proof.
  intros Hd Hs. unfold duration_setter in Hs. simpl in Hs.
  destruct (Z.eqb_spec d 0) as [|_]; [contradiction|].
  simpl in Hs. injection Hs as <-. simpl. auto.
Qed.

Lemma exclusive_fresh : exclusive fresh.
Proof. intros _. reflexivity. Qed.

Lemma exclusive_begin_setter `{Codecs} (t t' : Todo) (v : pyval) :
  begin_setter t v = Ok t' -> exclusive t -> exclusive t'.
Proof.
  intros Hs Ht. apply begin_setter_ok in Hs as (cv & _ & ->). exact Ht.
Qed.

Lemma exclusive_due_setter `{Codecs} (t t' : Todo) (v : pyval) :
  due_setter t v = Ok t' -> exclusive t -> exclusive t'.
Proof.
  intros Hs Ht. apply due_setter_ok in Hs as (cv & _ & ->).
  destruct cv as [x|]; unfold exclusive; simpl.
  - discriminate.
  - reflexivity.
Qed.

Lemma exclusive_duration_setter (t t' : Todo) (v : pyval) :
  duration_setter t v = Ok t' -> exclusive t'.
Proof.
  intros Hs. apply duration_setter_ok in Hs as (cv & ->).
  destruct (truthy_td cv) eqn:Hcv; unfold exclusive; simpl.
  - reflexivity.
  - rewrite Hcv. discriminate.
Qed.

Lemma exclusive_assign (a : attr) (t : Todo) : exclusive t -> exclusive (assign a t).
Proof. destruct a; exact id. Qed.

Lemma exclusive_init `{Codecs} (a : init_args) (t : Todo) :
  __init__ a = Ok t -> exclusive t.
Proof.
  unfold __init__. intros Hi.
  apply bind_ok in Hi as (c1 & _ & Hi).
  apply bind_ok in Hi as (c2 & _ & Hi).
  apply bind_ok in Hi as (t1 & Hb & Hi).
  apply bind_ok in Hi as (t2 & Hd & Hi).
  assert (Ht1 : exclusive t1).
  { eapply exclusive_begin_setter; [exact Hb|]. intros _. reflexivity. }
  assert (Ht2 : exclusive t2).
  { destruct (truthy (a_duration a) && truthy (a_due a)); [discriminate|].
    destruct (truthy (a_duration a)).
    - destruct (negb (truthy (a_begin a))); [discriminate|].
      eapply exclusive_duration_setter; exact Hd.
    - destruct (truthy (a_due a)).
      + eapply exclusive_due_setter; [exact Hd|]. exact Ht1.
      + injection Hd as <-. exact Ht1. }
  injection Hi as <-. destruct (a_alarms a); exact Ht2.
Qed.

(** ** The time fields under the extraction handlers *)

Lemma handler_keeps_apply (P : Todo -> Prop) (e : extractor) (c : Container) (t t' : Todo) :
  handler_keeps P (e_function e) -> apply_extractor e c t = Ok t' -> P t -> P t'.
Proof.
  unfold apply_extractor, handler_keeps. intros Hk Ha Ht.
  destruct (e_function e) as [f|f].
  - destruct (get_lines c (e_type e)) as [|l [|l' ls]]; [| |discriminate].
    + destruct (e_required e); [discriminate|]. eapply Hk; eauto.
    + eapply Hk; eauto.
  - destruct (get_blocks c (e_type e)) as [|b bs].
    + destruct (e_required e); [discriminate|]. eapply Hk; eauto.
    + eapply Hk; eauto.
Qed.

Lemma extractors_keep_exclusive `{Codecs} :
  Forall (fun e => handler_keeps exclusive (e_function e)) Inputs._EXTRACTORS.
Proof.
  unfold Inputs._EXTRACTORS.
  repeat first [apply Forall_nil_2 | apply Forall_cons_2];
    simpl; intros t l t' Hh Ht.
  - (* DTSTAMP *) unfold Inputs.dtstamp in Hh. ok_cases Hh; injection Hh as <-; exact Ht.
  - (* UID *) unfold Inputs.uid in Hh. ok_cases Hh; injection Hh as <-; exact Ht.
  - (* COMPLETED *) unfold Inputs.completed in Hh. ok_cases Hh; injection Hh as <-; exact Ht.
  - (* DESCRIPTION *)
    unfold Inputs.description in Hh. apply bind_ok in Hh as (v & _ & [= <-]). exact Ht.
  - (* DTSTART *)
    unfold Inputs.start in Hh. destruct l as [l|]; [|injection Hh as <-; exact Ht].
    apply bind_ok in Hh as (tz & _ & Hh). apply bind_ok in Hh as (a & _ & Hh).
    eapply exclusive_begin_setter; eauto.
  - (* LOCATION *)
    unfold Inputs.location in Hh. apply bind_ok in Hh as (v & _ & [= <-]). exact Ht.
  - (* PERCENT-COMPLETE *)
    unfold Inputs.percent in Hh. apply bind_ok in Hh as (v & _ & Hh).
    apply bind_ok in Hh as (low & _ & Hh). apply bind_ok in Hh as (bad & _ & Hh).
    destruct bad; [discriminate|]. injection Hh as <-. exact Ht.
  - (* PRIORITY *)
    unfold Inputs.priority in Hh. apply bind_ok in Hh as (v & _ & Hh).
    apply bind_ok in Hh as (low & _ & Hh). apply bind_ok in Hh as (bad & _ & Hh).
    destruct bad; [discriminate|]. injection Hh as <-. exact Ht.
  - (* SUMMARY *)
    unfold Inputs.summary in Hh. apply bind_ok in Hh as (v & _ & [= <-]). exact Ht.
  - (* URL *)
    unfold Inputs.url in Hh. apply bind_ok in Hh as (v & _ & [= <-]). exact Ht.
  - (* DUE: refused when a truthy duration is stored *)
    unfold Inputs.due in Hh. destruct l as [l|]; [|injection Hh as <-; exact Ht].
    destruct (truthy_td (_duration t)) eqn:Hd; [discriminate|].
    apply bind_ok in Hh as (tz & _ & Hh). apply bind_ok in Hh as (a & _ & [= <-]).
    unfold exclusive. simpl. rewrite Hd. discriminate.
  - (* DURATION: refused when a due time is stored *)
    unfold Inputs.duration in Hh. destruct l as [l|]; [|injection Hh as <-; exact Ht].
    destruct (_due_time t) as [x|] eqn:Hd; [discriminate|]. simpl in Hh.
    apply bind_ok in Hh as (d & _ & [= <-]).
    unfold exclusive. simpl. intros _. exact Hd.
  - (* VALARM *)
    unfold Inputs.alarms in Hh. apply bind_ok in Hh as (v & _ & [= <-]). exact Ht.
Qed.

Lemma exclusive_apply_extractor `{Codecs} (e : extractor) (c : Container) (t t' : Todo) :
  e ∈ Inputs._EXTRACTORS -> apply_extractor e c t = Ok t' -> exclusive t -> exclusive t'.
Proof.
  intros He. apply handler_keeps_apply.
  pose proof extractors_keep_exclusive as Hall.
  rewrite Forall_forall in Hall. apply Hall. exact He.
Qed.

Lemma exclusive_run_extractors `{Codecs} (es : list extractor) (c : Container) :
  (forall e, e ∈ es -> e ∈ Inputs._EXTRACTORS) ->
  forall t t', run_extractors es c t = Ok t' -> exclusive t -> exclusive t'.
Proof.
  induction es as [|e es IH]; intros Hsub t t' Hr Ht; simpl in Hr.
  - injection Hr as <-. exact Ht.
  - apply bind_ok in Hr as (t1 & He & Hr).
    assert (Hsub' : forall e', e' ∈ es -> e' ∈ Inputs._EXTRACTORS).
    { intros e' He'. apply Hsub. apply elem_of_cons. auto. }
    apply (IH Hsub' t1 t' Hr).
    eapply exclusive_apply_extractor; [|exact He|exact Ht].
    apply Hsub. apply elem_of_cons. auto.
Qed.

Lemma exclusive_populate `{Codecs} (c : Container) (t t' : Todo) :
  _populate t c = Ok t' -> exclusive t -> exclusive t'.
Proof.
  unfold _populate. intros Hp Ht.
  apply bind_ok in Hp as (t1 & Hr & [= <-]).
  change (exclusive t1).
  eapply exclusive_run_extractors; [|exact Hr|exact Ht]. auto.
Qed.

Lemma exclusive_step `{Codecs} (t t' : Todo) : step t t' -> exclusive t -> exclusive t'.
Proof.
  destruct 1 as [t v t' Hs|t v t' Hs|t v t' Hs|t a|t kw|t e c t' He Ha|t c t' Hp]; intros Ht.
  - eapply exclusive_begin_setter; eauto.
  - eapply exclusive_due_setter; eauto.
  - eapply exclusive_duration_setter; eauto.
  - apply exclusive_assign. exact Ht.
  - exact Ht.
  - eapply exclusive_apply_extractor; eauto.
  - eapply exclusive_populate; eauto.
Qed.

(** The invariant of the time model that every reachable entity
    satisfies. *)
Lemma reachable_exclusive `{Codecs} (t : Todo) : reachable t -> exclusive t.
Proof.
  induction 1 as [a t Hi|t t' _ IH Hs].
  - eapply exclusive_init. exact Hi.
  - eapply exclusive_step; eauto.
Qed.

(** The two fields can both be set only when the stored duration is
    the zero span. *)
Lemma reachable_at_most_one_or_zero `{Codecs} (t : Todo) :
  reachable t -> at_most_one t \/ _duration t = Some 0.
Proof.
  intros Hr. apply reachable_exclusive in Hr. unfold exclusive, at_most_one in *.
  destruct (_duration t) as [d|]; [|auto].
  destruct (Z.eqb_spec d 0) as [->|Hd]; [auto|].
  left. left. apply Hr. simpl. apply negb_true_iff, Z.eqb_neq. exact Hd.
Qed.

(** ** Claims about the accessor contract *)

(** C1 (the code departs from the claim).  The claim: after every
    operation at most one of [_due_time] and [_duration] is not [None],
    and setting [duration] to a value that is not [None] clears
    [_due_time].  The code: after [t = Todo(begin=10, due=20)], which
    satisfies the invariant, [t.duration = timedelta(0)] stores the zero
    span and leaves [_due_time] at 20, because the setter tests the
    truthiness of the new value and [timedelta(0)] is falsy.  The same
    happens on every entity with a stored due time. *)
Theorem duration_setter_zero_keeps_due_time `{Codecs} :
  (forall (t : Todo) (d : Z),
      _due_time t = Some d ->
      duration_setter t (PTimedelta 0) = Ok (with_duration (Some 0) t) /\
      ~ at_most_one (with_duration (Some 0) t)) /\
  (t ← __init__ (args_begin_due (PArrow 10) (PArrow 20));
   t' ← duration_setter t (PTimedelta 0);
   Ok (_due_time t, _duration t, _due_time t', _duration t'))
  = Ok (Some 20, None, Some 20, Some 0).
Proof.
  split; [|reflexivity].
  intros t d Hd. split; [reflexivity|].
  unfold at_most_one. simpl. rewrite Hd.
  intros [Hnone|Hnone]; discriminate Hnone.
Qed.

Lemma duration_setter_zero_keeps_due_time_witness :
  duration_setter (with_due_time (Some 20) (with_begin (Some 10) fresh)) (PTimedelta 0)
  = Ok (with_duration (Some 0) (with_due_time (Some 20) (with_begin (Some 10) fresh))) /\
  ~ at_most_one (with_duration (Some 0) (with_due_time (Some 20) (with_begin (Some 10) fresh))).
Proof.
  apply (proj1 (@duration_setter_zero_keeps_due_time toy_codecs)
           (with_due_time (Some 20) (with_begin (Some 10) fresh)) 20).
  reflexivity.
Defined.

(** C3.  Given that the coercion of [v] succeeds with [cv], the
    [begin] setter raises [ValueError] exactly when [cv] is a
    timestamp, [_due_time] is set and [cv] is strictly greater than it
    (a stored duration plays no part); it raises nothing else; and on
    success the new [_begin] is [cv] and every other field is
    unchanged. *)
Theorem begin_setter_spec `{Codecs} (t : Todo) (v : pyval) (cv : option Z) :
  get_arrow v = Ok cv ->
  (begin_setter t v = Raise ValueError <->
     exists x d, cv = Some x /\ _due_time t = Some d /\ d < x) /\
  (begin_setter t v = Raise ValueError \/ begin_setter t v = Ok (with_begin cv t)) /\
  (forall t', begin_setter t v = Ok t' -> _begin t' = cv /\ same_but_begin t t').
Proof.
  intros Hcv. unfold begin_setter. rewrite Hcv. simpl.
  destruct cv as [x|]; simpl; [destruct (_due_time t) as [d|] eqn:Hd; simpl|].
  - rewrite Z.gtb_ltb. destruct (Z.ltb_spec d x) as [Hlt|Hge].
    + split; [|split].
      * split; [intros _; exists x, d; auto | reflexivity].
      * left. reflexivity.
      * intros t' Ht'. discriminate Ht'.
    + split; [|split].
      * split; [discriminate|]. intros (x' & d' & [= <-] & [= <-] & Hlt). lia.
      * right. reflexivity.
      * intros t' [= <-]. simpl. unfold same_but_begin. simpl. tauto.
  - split; [|split].
    + split; [discriminate|]. intros (x' & d' & _ & Hd' & _). discriminate Hd'.
    + right. reflexivity.
    + intros t' [= <-]. unfold same_but_begin. simpl. tauto.
  - split; [|split].
    + split; [discriminate|]. intros (x' & d' & Hx & _). discriminate Hx.
    + right. reflexivity.
    + intros t' [= <-]. unfold same_but_begin. simpl. tauto.
Qed.

Lemma begin_setter_spec_witness :
  @begin_setter toy_codecs (with_due_time (Some 20) fresh) (PArrow 30) = Raise ValueError /\
  @begin_setter toy_codecs (with_due_time (Some 20) fresh) (PInt 0)
    = Ok (with_begin (Some 0) (with_due_time (Some 20) fresh)).
Proof.
  split.
  - apply (@begin_setter_spec toy_codecs (with_due_time (Some 20) fresh)
             (PArrow 30) (Some 30) eq_refl).
    exists 30, 20. split; [reflexivity|]. split; [reflexivity|]. lia.
  - destruct (proj1 (proj2 (@begin_setter_spec toy_codecs
             (with_due_time (Some 20) fresh) (PInt 0) (Some 0) eq_refl)))
      as [Hr|Hok]; [discriminate Hr | exact Hok].
Defined.

(** C4.  For timestamps [b <= d], a constructor call with [begin=b],
    [due=d] and no duration succeeds (the coercions of [completed] and
    [created] permitting) and the new entity reads back [begin = b] and
    [due = d]; and on every entity whose begin is set, setting [due] to
    a timestamp strictly before it raises [ValueError]. *)
Theorem init_begin_due_roundtrip `{Codecs} :
  (forall (a : init_args) (b d : Z) (c1 c2 : option Z),
      a_begin a = PArrow b -> a_due a = PArrow d ->
      truthy (a_duration a) = false ->
      get_arrow (a_completed a) = Ok c1 -> get_arrow (a_created a) = Ok c2 ->
      b <= d ->
      exists t, __init__ a = Ok t /\ begin t = Some b /\ due t = Ok (Some d)) /\
  (forall (t : Todo) (v : pyval) (b x : Z),
      _begin t = Some b -> get_arrow v = Ok (Some x) -> x < b ->
      due_setter t v = Raise ValueError).
Proof.
  split.
  - intros a b d c1 c2 Hb Hd Hk Hc1 Hc2 Hle.
    unfold __init__, begin_setter, due_setter.
    rewrite Hc1, Hc2, Hb, Hd, Hk. simpl.
    unfold arrow_lt, arrow_cmp.
    destruct (Z.ltb_spec d b) as [Hlt|_]; [lia|]. simpl.
    eexists. split; [reflexivity|].
    destruct (a_alarms a); split; reflexivity.
  - intros t v b x Hb Hx Hlt.
    unfold due_setter. rewrite Hx, Hb. simpl.
    destruct (Z.ltb_spec x b) as [_|Hge]; [reflexivity | lia].
Qed.

Lemma init_begin_due_roundtrip_witness :
  (exists t, @__init__ toy_codecs (args_begin_due (PArrow 10) (PArrow 20)) = Ok t /\
             begin t = Some 10 /\ due t = Ok (Some 20)) /\
  @due_setter toy_codecs (with_begin (Some 10) fresh) (PInt 0) = Raise ValueError.
Proof.
  split.
  - apply (proj1 (@init_begin_due_roundtrip toy_codecs)
             (args_begin_due (PArrow 10) (PArrow 20)) 10 20 None None);
      [reflexivity | reflexivity | reflexivity | reflexivity | reflexivity | lia].
  - apply (proj2 (@init_begin_due_roundtrip toy_codecs)
             (with_begin (Some 10) fresh) (PInt 0) 10 0);
      [reflexivity | reflexivity | lia].
Defined.

(** C10.  On every reachable entity whose [_due_time] is set while
    [begin] is absent, reading [duration] raises instead of returning
    [None]: the getter evaluates [due - begin] with [begin = None]. *)
Theorem duration_fails_without_begin `{Codecs} (t : Todo) (d : Z) :
  reachable t -> _due_time t = Some d -> _begin t = None ->
  raises (duration t) /\ duration t <> Ok None.
Proof.
  intros Hr Hd Hb. apply reachable_exclusive in Hr.
  unfold duration, due, begin.
  destruct (truthy_td (_duration t)) eqn:Hk.
  - rewrite (Hr Hk) in Hd. discriminate Hd.
  - rewrite Hd, Hb. simpl. split; [eexists; reflexivity | discriminate].
Qed.

(** The state of C10 is the one the DUE handler leaves behind on a
    blank entity. *)
Lemma due_handler_reaches_beginless_state `{Codecs}
    (kwargs : gmap string tzdict) (tz : tzdict) (l : ContentLine) (a : Z) :
  kwargs !! "tz" = Some tz -> iso_to_arrow l tz = Ok a ->
  exists t, Inputs.due (blank kwargs) (Some l) = Ok t /\
            _due_time t = Some a /\ _begin t = None.
Proof.
  intros Htz Hl. exists (with_due_time (Some a) (blank kwargs)).
  unfold Inputs.due, classmethod_tz. simpl. rewrite Htz. simpl.
  rewrite Hl. simpl. split; [reflexivity|]. split; reflexivity.
Qed.

Lemma init_no_args `{Codecs} :
  __init__ no_args
  = Ok (with_unused (mkContainer "VTODO" []) (with_uid (SStr uid_gen) fresh)).
Proof. reflexivity. Qed.

Lemma blank_reachable `{Codecs} (kwargs : gmap string tzdict) : reachable (blank kwargs).
Proof.
  apply (reach_step (with_unused (mkContainer "VTODO" []) (with_uid (SStr uid_gen) fresh))).
  - apply (reach_init no_args). apply init_no_args.
  - apply (step_kwargs _ kwargs).
Qed.

Lemma duration_fails_without_begin_witness :
  apply_extractor (mkExtractor "DUE" false (Single (@Inputs.due toy_codecs)))
    (mkContainer "VTODO" [ILine (ContentLine_ "DUE" (SInt 30))])
    (@blank toy_codecs {[ "tz" := ∅ ]})
  = Ok (with_due_time (Some 30) (@blank toy_codecs {[ "tz" := ∅ ]})) /\
  raises (duration (with_due_time (Some 30) (@blank toy_codecs {[ "tz" := ∅ ]}))).
Proof.
  split; [reflexivity|].
  apply (@duration_fails_without_begin toy_codecs _ 30);
    [|reflexivity|reflexivity].
  apply (@reach_step toy_codecs (@blank toy_codecs {[ "tz" := ∅ ]}));
    [apply (@blank_reachable toy_codecs)|].
  apply (@step_extract toy_codecs _
           (mkExtractor "DUE" false (Single (@Inputs.due toy_codecs)))
           (mkContainer "VTODO" [ILine (ContentLine_ "DUE" (SInt 30))]));
    [|reflexivity].
  unfold Inputs._EXTRACTORS. rewrite !elem_of_cons. tauto.
Defined.

(** ** Claims about extraction *)

Lemma get_lines_nil_iff (tag : string) (c : Container) :
  get_lines c tag = [] <-> ~ has_line tag c.
Proof.
  unfold get_lines, has_line. destruct c as [n items]. simpl.
  induction items as [|i items IH]; simpl.
  - split; [|reflexivity]. intros _ (l & Hin & _).
    apply elem_of_nil in Hin. exact Hin.
  - destruct i as [l|bn body|s]; simpl.
    + destruct (String.eqb_spec (cl_name l) tag) as [Heq|Hne].
      * split; [discriminate|]. intros Hno. exfalso. apply Hno.
        exists l. split; [apply elem_of_cons; auto | exact Heq].
      * rewrite IH. split; intros Hno (l' & Hin & Hl').
        -- apply elem_of_cons in Hin as [[= <-]|Hin]; [contradiction|].
           apply Hno. exists l'. auto.
        -- apply Hno. exists l'. split; [apply elem_of_cons; auto | exact Hl'].
    + rewrite IH. split; intros Hno (l' & Hin & Hl').
      * apply elem_of_cons in Hin as [Hin|Hin]; [discriminate Hin|].
        apply Hno. exists l'. auto.
      * apply Hno. exists l'. split; [apply elem_of_cons; auto | exact Hl'].
    + rewrite IH. split; intros Hno (l' & Hin & Hl').
      * apply elem_of_cons in Hin as [Hin|Hin]; [discriminate Hin|].
        apply Hno. exists l'. auto.
      * apply Hno. exists l'. split; [apply elem_of_cons; auto | exact Hl'].
Qed.

(** A handler that raises on every entity stops the whole run,
    whatever the handlers before it did. *)
Lemma run_extractors_raises (es1 es2 : list extractor) (e : extractor) (c : Container) :
  (forall t, raises (apply_extractor e c t)) ->
  forall t, raises (run_extractors (es1 ++ e :: es2) c t).
Proof.
  intros He. induction es1 as [|e1 es1 IH]; intros t; simpl.
  - apply raises_bind_l. apply He.
  - apply raises_bind_r. exact IH.
Qed.

Lemma percent_absent_line `{Codecs} (t : Todo) :
  Inputs.percent t None = Raise AttributeError.
Proof. reflexivity. Qed.

Lemma priority_absent_line `{Codecs} (t : Todo) :
  Inputs.priority t None = Raise AttributeError.
Proof. reflexivity. Qed.

Lemma populate_raises_at `{Codecs} (es1 es2 : list extractor) (e : extractor)
    (c : Container) (t : Todo) :
  Inputs._EXTRACTORS = es1 ++ e :: es2 ->
  (forall t', raises (apply_extractor e c t')) ->
  raises (_populate t c).
Proof.
  intros Hsplit He. unfold _populate. apply raises_bind_l.
  rewrite Hsplit. apply run_extractors_raises. exact He.
Qed.

(** C9.  The handlers of PERCENT-COMPLETE and PRIORITY read
    [line.value] before they test the line, so on an absent line they
    raise; both tags are registered as optional (positions 6 and 7 of
    the registry); and the extraction of every container that lacks a
    PERCENT-COMPLETE line, or lacks a PRIORITY line, fails. *)
Theorem extraction_fails_without_percent_or_priority `{Codecs} :
  (forall t, Inputs.percent t None = Raise AttributeError) /\
  (forall t, Inputs.priority t None = Raise AttributeError) /\
  Inputs._EXTRACTORS !! 6%nat
    = Some (mkExtractor "PERCENT-COMPLETE" false (Single Inputs.percent)) /\
  Inputs._EXTRACTORS !! 7%nat
    = Some (mkExtractor "PRIORITY" false (Single Inputs.priority)) /\
  (forall (c : Container) (kwargs : gmap string tzdict),
      get_lines c "PERCENT-COMPLETE" = [] \/ get_lines c "PRIORITY" = [] ->
      raises (_from_container c kwargs)).
Proof.
  split; [exact percent_absent_line|]. split; [exact priority_absent_line|].
  split; [reflexivity|]. split; [reflexivity|].
  intros c kwargs Hno. unfold _from_container. rewrite init_no_args. simpl.
  destruct Hno as [Hno|Hno].
  - apply (populate_raises_at (take 6 Inputs._EXTRACTORS) (drop 7 Inputs._EXTRACTORS)
             (mkExtractor "PERCENT-COMPLETE" false (Single Inputs.percent)));
      [reflexivity|].
    intros t'. unfold apply_extractor. simpl. rewrite Hno.
    eexists. apply percent_absent_line.
  - apply (populate_raises_at (take 7 Inputs._EXTRACTORS) (drop 8 Inputs._EXTRACTORS)
             (mkExtractor "PRIORITY" false (Single Inputs.priority)));
      [reflexivity|].
    intros t'. unfold apply_extractor. simpl. rewrite Hno.
    eexists. apply priority_absent_line.
Qed.

Lemma extraction_fails_without_percent_or_priority_witness :
  raises (@_from_container toy_codecs
            (mkContainer "VTODO"
               [ILine (ContentLine_ "UID" (SStr "a@b"));
                ILine (ContentLine_ "DTSTAMP" (SInt 3));
                ILine (ContentLine_ "PRIORITY" (SInt 1))])
            {[ "tz" := ∅ ]}).
Proof.
  apply (proj2 (proj2 (proj2 (proj2
           (@extraction_fails_without_percent_or_priority toy_codecs))))).
  left. reflexivity.
Defined.

(** ** Claims about the interval tests and the ordering *)

Lemma due_within_not_todo (a : Todo) (v : pyval) :
  (forall b, v <> PTodo b) -> due_within a v = Raise NotImplementedError.
Proof. intros Hv. destruct v; try reflexivity. exfalso. eapply Hv. reflexivity. Qed.

(** What [due_within] computes once its guard is passed: the guard asks
    for [self.begin], not for [self.due]. *)
Lemma due_within_with_begin (a b : Todo) (x0 x y z : Z) :
  begin a = Some x0 -> due a = Ok (Some x) ->
  begin b = Some y -> due b = Ok (Some z) ->
  due_within a (PTodo b) = Ok ((y <=? x) && (x <=? z)).
Proof.
  intros Ha Hda Hb Hdb. unfold due_within. rewrite Ha, Hb, Hdb, Hda. simpl.
  destruct (y <=? x); reflexivity.
Qed.

(** C2 (the code departs from the claim).  The claim: [a.due_within(b)]
    is true iff [a] has a due, [b] has a begin and a due, and
    [b.begin <= a.due <= b.due].  The code tests [self.begin] where its
    own comment says "if we have a due".  With
    [a = Todo(begin=10, due=15); a.begin = None] and
    [b = Todo(begin=10, due=20)] the window holds ([10 <= 15 <= 20])
    and the call returns [False]; the same happens on every entity
    that has a due and no begin. *)
Theorem due_within_tests_begin_not_due `{Codecs} :
  (forall (a b : Todo) (x y z : Z),
      begin a = None -> due a = Ok (Some x) ->
      begin b = Some y -> due b = Ok (Some z) -> y <= x <= z ->
      due_within a (PTodo b) = Ok false) /\
  (a ← __init__ (args_begin_due (PArrow 10) (PArrow 15));
   a ← begin_setter a PNone;
   b ← __init__ (args_begin_due (PArrow 10) (PArrow 20));
   da ← due a; db ← due b;
   Ok (begin a, da, begin b, db, due_within a (PTodo b)))
  = Ok (None, Some 15, Some 10, Some 20, Ok false).
Proof.
  split; [|reflexivity].
  intros a b x y z Ha _ _ _ _. unfold due_within. rewrite Ha. reflexivity.
Qed.

Lemma due_within_tests_begin_not_due_witness :
  due_within (with_due_time (Some 15) fresh)
             (PTodo (with_due_time (Some 20) (with_begin (Some 10) fresh))) = Ok false.
Proof.
  apply (proj1 (@due_within_tests_begin_not_due toy_codecs)
           (with_due_time (Some 15) fresh)
           (with_due_time (Some 20) (with_begin (Some 10) fresh)) 15 10 20);
    [reflexivity | reflexivity | reflexivity | reflexivity | lia].
Defined.

Lemma lt_le_by_name (a b : Todo) :
  due a = Ok None -> due b = Ok None ->
  __lt__ a (PTodo b)
  = Ok (match name a, name b with
        | None, None => false
        | None, Some _ => true
        | Some _, None => false
        | Some x, Some y => String.ltb x y
        end) /\
  __le__ a (PTodo b)
  = Ok (match name a, name b with
        | None, _ => true
        | Some _, None => false
        | Some x, Some y => String.leb x y
        end).
Proof.
  intros Ha Hb. unfold __lt__, __le__, both_due_none. rewrite Ha, Hb. simpl.
  destruct (name a), (name b); split; reflexivity.
Qed.

Lemma gt_ge_by_present_name (a b : Todo) (x y : string) :
  due a = Ok None -> due b = Ok None -> name a = Some x -> name b = Some y ->
  __gt__ a (PTodo b) = Ok (String.ltb y x) /\
  __ge__ a (PTodo b) = Ok (String.leb y x).
Proof.
  intros Ha Hb Hx Hy. unfold __gt__, __ge__, both_due_none.
  rewrite Ha, Hb, Hx, Hy. split; reflexivity.
Qed.

(** C7 (the code departs from the claim).  The claim: with both dues
    absent all four operators compare by name, an absent name first,
    and for two absent names [<] and [>] are false, [<=] and [>=] true.
    [__lt__] and [__le__] do so.  [__gt__] and [__ge__] compare the two
    names directly (the source: "TODO : handle py3 case when a name is
    None"): for [a = Todo()] and [b = Todo()] both raise [TypeError],
    and so does [a > c] for [c = Todo(name='x')]. *)
Theorem gt_ge_raise_on_absent_name `{Codecs} :
  (forall (a b : Todo),
      due a = Ok None -> due b = Ok None ->
      name a = None \/ name b = None ->
      __gt__ a (PTodo b) = Raise TypeError /\
      __ge__ a (PTodo b) = Raise TypeError) /\
  (a ← __init__ no_args;
   b ← __init__ no_args;
   da ← due a; db ← due b;
   Ok (da, db, name a, name b,
       __lt__ a (PTodo b), __le__ a (PTodo b),
       __gt__ a (PTodo b), __ge__ a (PTodo b)))
  = Ok (None, None, None, None,
        Ok false, Ok true, Raise TypeError, Raise TypeError) /\
  (a ← __init__ no_args;
   c ← __init__ no_args;
   let c := with_name (Some "x") c in
   dc ← due c;
   Ok (dc, name c, __lt__ a (PTodo c), __gt__ a (PTodo c), __ge__ c (PTodo a)))
  = Ok (None, Some "x", Ok true, Raise TypeError, Raise TypeError).
Proof.
  split; [|split; reflexivity].
  intros a b Ha Hb Hname. unfold __gt__, __ge__, both_due_none.
  rewrite Ha, Hb. simpl. unfold str_gt, str_ge, str_cmp.
  destruct Hname as [-> | ->]; [split; reflexivity|].
  destruct (name a); split; reflexivity.
Qed.

Lemma gt_ge_raise_on_absent_name_witness :
  __gt__ fresh (PTodo (with_name (Some "x") fresh)) = Raise TypeError /\
  __ge__ fresh (PTodo (with_name (Some "x") fresh)) = Raise TypeError.
Proof.
  apply (proj1 (@gt_ge_raise_on_absent_name toy_codecs)
           fresh (with_name (Some "x") fresh));
    [reflexivity | reflexivity | left; reflexivity].
Defined.

(** ** Claims about the derived values *)

Lemma due_of_stored_duration (t : Todo) (b k : Z) :
  _begin t = Some b -> _duration t = Some k -> k <> 0 ->
  in_datetime_range (b + k) = true ->
  due t = Ok (Some (b + k)).
Proof.
  intros Hb Hk Hnz Hin. unfold due, begin. rewrite Hk, Hb. simpl.
  destruct (Z.eqb_spec k 0) as [|_]; [contradiction|]. simpl.
  rewrite Hin. reflexivity.
Qed.

Lemma duration_is_due_minus_begin (t : Todo) (b x : Z) :
  _begin t = Some b -> due t = Ok (Some x) ->
  duration t = Ok (Some (x - b)).
Proof.
  intros Hb Hx. unfold duration. rewrite Hx. simpl.
  destruct (truthy_td (_duration t)) eqn:Hk.
  - unfold due, begin in Hx. rewrite Hk, Hb in Hx.
    destruct (_duration t) as [k|]; [|discriminate Hk].
    simpl in Hx. destruct (in_datetime_range (b + k)); [|discriminate Hx].
    simpl in Hx. injection Hx as <-. f_equal. f_equal. lia.
  - unfold begin. rewrite Hb. reflexivity.
Qed.

(** C5 (the code departs from the claim).  The claim: with a begin and
    a stored duration the derived due is [begin + duration].  The
    getter tests the truthiness of the stored span: after
    [t = Todo(begin=10); t.duration = timedelta(0)] the span is stored,
    [t.due] is [None] rather than [10 + 0], and [t.duration] is [None]
    as well. *)
Theorem due_ignores_stored_zero_duration `{Codecs} :
  (forall (t : Todo) (b : Z),
      _begin t = Some b -> _duration t = Some 0 -> _due_time t = None ->
      due t = Ok None /\ due t <> Ok (Some (b + 0))) /\
  (t ← __init__ (args_begin_due (PArrow 10) PNone);
   t ← duration_setter t (PTimedelta 0);
   Ok (begin t, _duration t, due t, duration t))
  = Ok (Some 10, Some 0, Ok None, Ok None).
Proof.
  split; [|reflexivity].
  intros t b _ Hk Hd. unfold due. rewrite Hk, Hd. simpl.
  split; [reflexivity | discriminate].
Qed.

Lemma due_ignores_stored_zero_duration_witness :
  due (with_duration (Some 0) (with_begin (Some 10) fresh)) = Ok None /\
  due (with_duration (Some 0) (with_begin (Some 10) fresh)) <> Ok (Some (10 + 0)).
Proof.
  apply (proj1 (@due_ignores_stored_zero_duration toy_codecs)
           (with_duration (Some 0) (with_begin (Some 10) fresh)) 10);
    reflexivity.
Defined.

(** ** Claims about construction *)

Lemma init_rejects_duration_and_due `{Codecs} (a : init_args) :
  truthy (a_duration a) = true -> truthy (a_due a) = true ->
  raises (__init__ a) /\
  (is_ok (get_arrow (a_completed a)) = true ->
   is_ok (get_arrow (a_created a)) = true ->
   is_ok (get_arrow (a_begin a)) = true ->
   __init__ a = Raise ValueError).
Proof.
  intros Hk Hd. unfold __init__. rewrite Hk, Hd. simpl. split.
  - do 3 (apply raises_bind_r; intros ?). eexists. reflexivity.
  - intros H1 H2 H3.
    destruct (get_arrow (a_completed a)); [|discriminate H1].
    destruct (get_arrow (a_created a)); [|discriminate H2]. simpl.
    unfold begin_setter.
    destruct (get_arrow (a_begin a)) as [cv|]; [|discriminate H3]. simpl.
    destruct cv; reflexivity.
Qed.

Lemma init_rejects_duration_without_begin `{Codecs} (a : init_args) :
  truthy (a_duration a) = true -> a_begin a = PNone ->
  raises (__init__ a).
Proof.
  intros Hk Hb. unfold __init__. rewrite Hk, Hb. simpl.
  do 2 (apply raises_bind_r; intros ?).
  destruct (truthy (a_due a)); eexists; reflexivity.
Qed.

(** C6 (the code departs from the claim).  The claim: a constructor
    call with a duration and a due that are both not [None] fails, and
    so does one with a duration and no begin.  The constructor tests
    truthiness: [Todo(begin=10, due=20, duration=timedelta(0))] returns
    an entity (with the due time 20) and [Todo(duration=timedelta(0))]
    returns an entity as well: the constructor cannot tell
    [duration=timedelta(0)] from an absent duration. *)
Theorem init_accepts_zero_duration `{Codecs} :
  (forall b d : pyval,
      __init__ (args_begin_due_duration b d (PTimedelta 0))
      = __init__ (args_begin_due b d)) /\
  (t ← __init__ (args_begin_due_duration (PArrow 10) (PArrow 20) (PTimedelta 0));
   Ok (_begin t, _due_time t, _duration t))
  = Ok (Some 10, Some 20, None) /\
  (t ← __init__ (args_begin_due_duration PNone PNone (PTimedelta 0));
   Ok (_begin t, _due_time t, _duration t))
  = Ok (None, None, None).
Proof.
  split; [|split; reflexivity].
  intros b d. unfold __init__, args_begin_due_duration, args_begin_due. simpl.
  destruct (begin_setter _ b) as [t|e]; reflexivity.
Qed.

(** ** Claims about serialization *)

Lemma count_tag_append (tag : string) (x : item) (c : Container) :
  count_tag tag (append x c)
  = (count_tag tag c + match line_named tag x with Some _ => 1 | None => 0 end)%nat.
Proof.
  unfold count_tag, get_lines, append. simpl. rewrite omap_app, length_app. simpl.
  destruct (line_named tag x); reflexivity.
Qed.

(** A producer is quiet for a tag when it never adds a line with it. *)
Ltac quiet_producer :=
  intros;
  repeat match goal with
         | |- context [match ?x with _ => _ end] => destruct x
         end;
  rewrite ?count_tag_append; simpl; lia.

Lemma quiet_producers `{Codecs} (tag : string) (t : Todo) (c : Container) :
  tag = "DUE" \/ tag = "DURATION" ->
  count_tag tag (Outputs.o_uid t c) = count_tag tag c /\
  count_tag tag (Outputs.o_completed t c) = count_tag tag c /\
  count_tag tag (Outputs.o_created t c) = count_tag tag c /\
  count_tag tag (Outputs.o_description t c) = count_tag tag c /\
  count_tag tag (Outputs.o_start t c) = count_tag tag c /\
  count_tag tag (Outputs.o_location t c) = count_tag tag c /\
  count_tag tag (Outputs.o_percent t c) = count_tag tag c /\
  count_tag tag (Outputs.o_priority t c) = count_tag tag c /\
  count_tag tag (Outputs.o_summary t c) = count_tag tag c /\
  count_tag tag (Outputs.o_url t c) = count_tag tag c.
Proof.
  intros [-> | ->];
    unfold Outputs.o_uid, Outputs.o_completed, Outputs.o_created,
      Outputs.o_description, Outputs.o_start, Outputs.o_location,
      Outputs.o_percent, Outputs.o_priority, Outputs.o_summary, Outputs.o_url;
    repeat split; quiet_producer.
Qed.

Lemma quiet_alarm (tag : string) (t : Todo) (c : Container) :
  count_tag tag (Outputs.o_alarm t c) = count_tag tag c.
Proof.
  unfold Outputs.o_alarm. generalize c. clear c.
  induction (alarms t) as [|a l IH]; intros c; simpl; [reflexivity|].
  rewrite IH, count_tag_append. simpl. lia.
Qed.

Lemma o_due_count `{Codecs} (t : Todo) (c : Container) :
  count_tag "DUE" (Outputs.o_due t c)
  = (count_tag "DUE" c + if truthy_arrow (_due_time t) then 1 else 0)%nat /\
  count_tag "DURATION" (Outputs.o_due t c) = count_tag "DURATION" c.
Proof.
  unfold Outputs.o_due. destruct (_due_time t); simpl;
    rewrite ?count_tag_append; simpl; split; lia.
Qed.

Lemma o_duration_count `{Codecs} (t : Todo) (c : Container) :
  count_tag "DURATION" (Outputs.o_duration t c)
  = (count_tag "DURATION" c
     + if truthy_td (_duration t) && truthy_arrow (begin t) then 1 else 0)%nat /\
  count_tag "DUE" (Outputs.o_duration t c) = count_tag "DUE" c.
Proof.
  unfold Outputs.o_duration. destruct (_duration t) as [d|]; simpl; [|split; lia].
  destruct (negb (d =? 0) && truthy_arrow (begin t));
    rewrite ?count_tag_append; simpl; split; lia.
Qed.

(** What the producers emit for the two time tags: a DUE line exactly
    for a stored due time, a DURATION line exactly for a stored span
    that is not zero together with a begin. *)
Lemma produced_counts `{Codecs} (t : Todo) :
  count_tag "DUE" (produced t) = (if truthy_arrow (_due_time t) then 1 else 0)%nat /\
  count_tag "DURATION" (produced t)
  = (if truthy_td (_duration t) && truthy_arrow (begin t) then 1 else 0)%nat.
Proof.
  unfold produced, Outputs._OUTPUTS. simpl foldl.
  set (c0 := mkContainer "VTODO" []).
  assert (Hq : forall tag, tag = "DUE" \/ tag = "DURATION" ->
            count_tag tag (Outputs.o_url t (Outputs.o_summary t (Outputs.o_priority t
              (Outputs.o_percent t (Outputs.o_location t (Outputs.o_start t
                (Outputs.o_description t (Outputs.o_created t (Outputs.o_completed t
                  (Outputs.o_uid t c0)))))))))) = 0%nat).
  { intros tag Htag.
    repeat match goal with
           | |- count_tag tag (?o t ?c) = _ =>
               let Hc := fresh "Hc" in
               pose proof (quiet_producers tag t c Htag) as Hc;
               first [ rewrite (proj1 Hc)
                     | rewrite (proj1 (proj2 Hc))
                     | rewrite (proj1 (proj2 (proj2 Hc)))
                     | rewrite (proj1 (proj2 (proj2 (proj2 Hc))))
                     | rewrite (proj1 (proj2 (proj2 (proj2 (proj2 Hc)))))
                     | rewrite (proj1 (proj2 (proj2 (proj2 (proj2 (proj2 Hc))))))
                     | rewrite (proj1 (proj2 (proj2 (proj2 (proj2 (proj2 (proj2 Hc)))))))
                     | rewrite (proj1 (proj2 (proj2 (proj2 (proj2 (proj2 (proj2 (proj2 Hc))))))))
                     | rewrite (proj1 (proj2 (proj2 (proj2 (proj2 (proj2 (proj2 (proj2 (proj2 Hc)))))))))
                     | rewrite (proj2 (proj2 (proj2 (proj2 (proj2 (proj2 (proj2 (proj2 (proj2 Hc))))))))) ];
               clear Hc
           end.
    reflexivity. }
  rewrite !quiet_alarm.
  rewrite (proj2 (o_duration_count t _)), (proj1 (o_due_count t _)).
  rewrite (proj1 (o_duration_count t _)), (proj2 (o_due_count t _)).
  rewrite !Hq by auto. split; reflexivity.
Qed.

(** No reachable entity is serialized with both a DUE and a DURATION
    line among the produced lines. *)
Lemma produced_not_both `{Codecs} (t : Todo) :
  reachable t ->
  (count_tag "DUE" (produced t) = 0 \/ count_tag "DURATION" (produced t) = 0)%nat.
Proof.
  intros Hr. apply reachable_exclusive in Hr. unfold exclusive in Hr.
  destruct (produced_counts t) as [-> ->].
  destruct (truthy_td (_duration t)); simpl.
  - left. rewrite (Hr eq_refl). reflexivity.
  - right. reflexivity.
Qed.

(** C8 (the code departs from the claim).  The claim: a DURATION line
    is appended iff the explicit duration field and begin are both
    set.  The producer tests the truthiness of the span: after
    [t = Todo(begin=10); t.duration = timedelta(0)] the field holds the
    zero span, begin is set, and the output has no DURATION line (and
    no DUE line). *)
Theorem o_duration_skips_stored_zero_duration `{Codecs} :
  (forall (t : Todo) (c : Container),
      _duration t = Some 0 -> Outputs.o_duration t c = c) /\
  (t ← __init__ (args_begin_due (PArrow 10) PNone);
   t ← duration_setter t (PTimedelta 0);
   Ok (begin t, _duration t,
       count_tag "DURATION" (serialize t), count_tag "DUE" (serialize t)))
  = Ok (Some 10, Some 0, 0%nat, 0%nat).
Proof.
  split; [|reflexivity].
  intros t c Hk. unfold Outputs.o_duration. rewrite Hk. reflexivity.
Qed.

Lemma o_duration_skips_stored_zero_duration_witness :
  @Outputs.o_duration toy_codecs
    (with_duration (Some 0) (with_begin (Some 10) fresh)) (mkContainer "VTODO" [])
  = mkContainer "VTODO" [].
Proof.
  apply (proj1 (@o_duration_skips_stored_zero_duration toy_codecs)).
  reflexivity.
Defined.

(** * Further properties of the module *)

(** ** The getters *)

(** X1.  The [due] getter raises in two cases only, both with a truthy
    stored duration: with [TypeError] when [begin] is absent, and with
    [OverflowError] when [begin + duration] leaves the range of the
    datetime library.  The setters let a program get to both:
    [t = Todo(); t.duration = 1; t.due], and
    [t = Todo(begin=Arrow.max); t.duration = timedelta(microseconds=1);
    t.due]. *)
Theorem due_raises_iff `{Codecs} (t : Todo) :
  (forall e, due t = Raise e <->
     truthy_td (_duration t) = true /\
     ((e = TypeError /\ _begin t = None) \/
      (e = OverflowError /\
       exists b k, _begin t = Some b /\ _duration t = Some k /\
                   in_datetime_range (b + k) = false))) /\
  (t0 ← __init__ no_args; t0 ← duration_setter t0 (PInt 1); Ok (due t0))
  = Ok (Raise TypeError) /\
  (t0 ← __init__ (args_begin_due (PArrow datetime_max) PNone);
   t0 ← duration_setter t0 (PTimedelta 1); Ok (due t0))
  = Ok (Raise OverflowError).
Proof.
  split; [|split; reflexivity].
  intros e. unfold due, begin.
  destruct (_duration t) as [k|]; simpl.
  2:{ destruct (truthy_arrow (_due_time t));
        (split; [discriminate | intros [Hk _]; discriminate Hk]). }
  destruct (negb (k =? 0)); simpl.
  2:{ destruct (truthy_arrow (_due_time t));
        (split; [discriminate | intros [Hk _]; discriminate Hk]). }
  destruct (_begin t) as [b|]; simpl.
  - destruct (in_datetime_range (b + k)) eqn:Hin; simpl.
    + split; [discriminate|].
      intros [_ [[_ Hb]|(_ & b' & k' & [= <-] & [= <-] & Hout)]];
        [discriminate Hb | congruence].
    + split.
      * intros [= <-]. split; [reflexivity|]. right. split; [reflexivity|].
        exists b, k. auto.
      * intros [_ [[_ Hb]|[-> _]]]; [discriminate Hb | reflexivity].
  - split.
    + intros [= <-]. split; [reflexivity|]. left. auto.
    + intros [_ [[-> _]|(_ & b' & k' & Hb & _)]]; [reflexivity | discriminate Hb].
Qed.

(** X2.  The [duration] getter raises exactly when no truthy duration
    is stored, a due time is stored and [begin] is absent, and then with
    the [NotImplementedError] of the subtraction; in every other state
    it returns. *)
Theorem duration_raises_iff (t : Todo) :
  (raises (duration t) <->
     truthy_td (_duration t) = false /\ _due_time t <> None /\ _begin t = None) /\
  (forall e, duration t = Raise e -> e = NotImplementedError).
Proof.
  unfold duration, due, begin.
  destruct (truthy_td (_duration t)) eqn:Hk; simpl.
  - split.
    + split; [intros [e He]; discriminate He | intros [Hf _]; discriminate Hf].
    + intros e He. discriminate He.
  - destruct (_due_time t) as [x|]; simpl.
    + destruct (_begin t) as [b|]; simpl.
      * split.
        -- split; [intros [e He]; discriminate He | intros (_ & _ & Hb); discriminate Hb].
        -- intros e He. discriminate He.
      * split.
        -- split; [intros _; repeat split; discriminate | intros _; eexists; reflexivity].
        -- intros e [= <-]. reflexivity.
    + split.
      * split; [intros [e He]; discriminate He | intros (_ & Hd & _); contradiction].
      * intros e He. discriminate He.
Qed.

(** ** The setters *)

(** X3.  Setting [due] to a timestamp [x] raises [ValueError] exactly
    when a begin is set and [x] is strictly before it, and otherwise
    succeeds, also on an entity without a begin.  Afterwards the getter
    returns [x], no duration is stored and [begin] is untouched; with a
    begin [b], [b <= x] and the derived duration is [x - b]; without a
    begin, reading [duration] raises. *)
Theorem due_setter_then_get `{Codecs} (t : Todo) (v : pyval) (x : Z) :
  get_arrow v = Ok (Some x) ->
  (due_setter t v = Raise ValueError <-> exists b, _begin t = Some b /\ x < b) /\
  (due_setter t v = Raise ValueError \/
   due_setter t v = Ok (with_duration None (with_due_time (Some x) t))) /\
  (forall t', due_setter t v = Ok t' ->
     due t' = Ok (Some x) /\ _duration t' = None /\ _begin t' = _begin t /\
     (forall b, _begin t = Some b -> b <= x /\ duration t' = Ok (Some (x - b))) /\
     (_begin t = None -> raises (duration t'))).
Proof.
  intros Hv. unfold due_setter. rewrite Hv. simpl.
  destruct (_begin t) as [b|] eqn:Hb; simpl.
  - destruct (Z.ltb_spec x b) as [Hlt|Hge]; simpl.
    + split; [|split].
      * split; [intros _; exists b; auto | reflexivity].
      * left. reflexivity.
      * intros t' Ht'. discriminate Ht'.
    + split; [|split].
      * split; [discriminate|]. intros (b' & [= <-] & Hlt). lia.
      * right. reflexivity.
      * intros t' [= <-]. unfold duration, due, begin. simpl. rewrite Hb.
        do 3 (split; [reflexivity|]). split.
        -- intros b' [= <-]. split; [exact Hge | reflexivity].
        -- intros Hn. discriminate Hn.
  - split; [|split].
    + split; [discriminate|]. intros (b' & Hb' & _). discriminate Hb'.
    + right. reflexivity.
    + intros t' [= <-]. unfold duration, due, begin. simpl. rewrite Hb.
      do 3 (split; [reflexivity|]). split.
      * intros b' Hb'. discriminate Hb'.
      * intros _. eexists. reflexivity.
Qed.

Lemma due_setter_then_get_witness :
  @due_setter toy_codecs fresh (PArrow 20)
  = Ok (with_duration None (with_due_time (Some 20) fresh)) /\
  due (with_duration None (with_due_time (Some 20) fresh)) = Ok (Some 20) /\
  raises (duration (with_duration None (with_due_time (Some 20) fresh))).
Proof.
  destruct (@due_setter_then_get toy_codecs fresh (PArrow 20) 20 eq_refl)
    as (_ & Hrun & Hget).
  destruct Hrun as [Hbad|Hok]; [discriminate Hbad|].
  destruct (Hget _ Hok) as (Hd & _ & _ & _ & Hr).
  split; [exact Hok|]. split; [exact Hd|]. apply Hr. reflexivity.
Defined.

(** X4.  After [duration] has been set to a span [d] that is not zero,
    the getter returns [d], no due time is stored and [begin] is
    untouched; the derived due is [begin + d] when a begin is set and
    the sum is in the datetime range, an [OverflowError] when the sum
    is not, and a [TypeError] when no begin is set. *)
Theorem duration_setter_then_get (t t' : Todo) (d : Z) :
  d <> 0 -> duration_setter t (PTimedelta d) = Ok t' ->
  duration t' = Ok (Some d) /\ _due_time t' = None /\ _begin t' = _begin t /\
  (forall b, _begin t = Some b ->
     due t' = (if in_datetime_range (b + d) then Ok (Some (b + d))
               else Raise OverflowError)) /\
  (_begin t = None -> due t' = Raise TypeError).
Proof.
  intros Hd Hs. unfold duration_setter in Hs. simpl in Hs.
  destruct (Z.eqb_spec d 0) as [|_]; [contradiction|]. simpl in Hs.
  injection Hs as <-. unfold duration, due, begin. simpl.
  destruct (Z.eqb_spec d 0) as [|_]; [contradiction|]. simpl.
  split; [reflexivity|]. split; [reflexivity|]. split; [reflexivity|].
  split; [intros b Hb | intros Hb]; rewrite Hb; simpl; [|reflexivity].
  destruct (in_datetime_range (b + d)); reflexivity.
Qed.

Lemma duration_setter_then_get_witness :
  duration (with_due_time None (with_duration (Some 5)
              (with_due_time (Some 20) (with_begin (Some 10) fresh))))
  = Ok (Some 5) /\
  due (with_due_time None (with_duration (Some 5)
         (with_due_time (Some 20) (with_begin (Some 10) fresh))))
  = (if in_datetime_range (10 + 5) then Ok (Some (10 + 5)) else Raise OverflowError).
Proof.
  assert (Hnz : 5 <> 0) by discriminate.
  destruct (duration_setter_then_get
              (with_due_time (Some 20) (with_begin (Some 10) fresh))
              (with_due_time None (with_duration (Some 5)
                 (with_due_time (Some 20) (with_begin (Some 10) fresh))))
              5 Hnz eq_refl) as (Hk & _ & _ & Hb & _).
  split; [exact Hk|]. exact (Hb 10 eq_refl).
Defined.

(** X5.  On a reachable entity whose due is defined by a stored
    duration [d] that is not zero, [begin] can be set to any timestamp
    [b]: the setter does not raise and the duration is kept; the due
    moves with the begin to [b + d], or overflows when [b + d] is
    outside the datetime range. *)
Theorem begin_setter_moves_duration_due `{Codecs}
    (t : Todo) (v : pyval) (b d : Z) :
  reachable t -> _duration t = Some d -> d <> 0 -> get_arrow v = Ok (Some b) ->
  begin_setter t v = Ok (with_begin (Some b) t) /\
  duration (with_begin (Some b) t) = Ok (Some d) /\
  due (with_begin (Some b) t)
  = (if in_datetime_range (b + d) then Ok (Some (b + d)) else Raise OverflowError).
Proof.
  intros Hr Hk Hd Hv. apply reachable_exclusive in Hr. unfold exclusive in Hr.
  assert (Htd : truthy_td (_duration t) = true).
  { rewrite Hk. simpl. apply negb_true_iff, Z.eqb_neq. exact Hd. }
  specialize (Hr Htd).
  unfold begin_setter, duration, due, begin. rewrite Hv, Hr. simpl.
  rewrite Htd, Hk. simpl.
  split; [reflexivity|]. split; [reflexivity|].
  destruct (in_datetime_range (b + d)); reflexivity.
Qed.

Lemma begin_setter_moves_duration_due_witness :
  @begin_setter toy_codecs
    (with_due_time None (with_duration (Some 5)
       (with_unused (mkContainer "VTODO" []) (with_uid (SStr "generated@host") fresh))))
    (PArrow 7)
  = Ok (with_begin (Some 7)
          (with_due_time None (with_duration (Some 5)
             (with_unused (mkContainer "VTODO" [])
                (with_uid (SStr "generated@host") fresh))))) /\
  due (with_begin (Some 7)
         (with_due_time None (with_duration (Some 5)
            (with_unused (mkContainer "VTODO" [])
               (with_uid (SStr "generated@host") fresh)))))
  = (if in_datetime_range (7 + 5) then Ok (Some (7 + 5)) else Raise OverflowError).
Proof.
  assert (Hnz : 5 <> 0) by discriminate.
  destruct (@begin_setter_moves_duration_due toy_codecs
              (with_due_time None (with_duration (Some 5)
                 (with_unused (mkContainer "VTODO" [])
                    (with_uid (SStr "generated@host") fresh))))
              (PArrow 7) 7 5) as (Hs & _ & Hd);
    [ | reflexivity | exact Hnz | reflexivity | split; [exact Hs | exact Hd] ].
  apply (@reach_step toy_codecs
           (with_unused (mkContainer "VTODO" []) (with_uid (SStr "generated@host") fresh))).
  - apply (@reach_init toy_codecs no_args). apply (@init_no_args toy_codecs).
  - apply (@step_duration toy_codecs _ (PTimedelta 5)). reflexivity.
Defined.

(** The sum of the keywords of [timedelta]: it fails exactly when a
    keyword is unknown, and then with [TypeError]. *)
Lemma timedelta_sum_outcome (kw : gmap string Z) :
  (forall e, timedelta_sum kw = Raise e -> e = TypeError) /\
  (is_ok (timedelta_sum kw) = true <->
     forall k v, kw !! k = Some v -> timedelta_unit k <> None).
Proof.
  unfold timedelta_sum.
  apply (map_fold_weak_ind
           (fun r (m : gmap string Z) =>
              (forall e, r = Raise e -> e = TypeError) /\
              (is_ok r = true <->
                 forall k v, m !! k = Some v -> timedelta_unit k <> None))).
  - split; [discriminate|]. split; [|reflexivity].
    intros _ k v Hk. rewrite lookup_empty in Hk. discriminate Hk.
  - intros i x m r Hi [Herr Hok]. destruct r as [a|e0]; simpl.
    + assert (Hm : forall k v, m !! k = Some v -> timedelta_unit k <> None).
      { apply Hok. reflexivity. }
      destruct (timedelta_unit i) as [u|] eqn:Hu; simpl.
      * split; [discriminate|]. split; [|reflexivity].
        intros _ k v Hk. destruct (decide (i = k)) as [<-|Hne].
        -- rewrite Hu. discriminate.
        -- rewrite lookup_insert_ne in Hk by exact Hne. eapply Hm. exact Hk.
      * split; [intros e [= <-]; reflexivity|]. split; [discriminate|].
        intros Hall. exfalso. apply (Hall i x); [apply lookup_insert_eq | exact Hu].
    + split; [exact Herr|]. split; [discriminate|].
      intros Hall. apply Hok. intros k v Hk. apply (Hall k v).
      rewrite lookup_insert_ne; [exact Hk|]. intros <-. rewrite Hi in Hk. discriminate Hk.
Qed.

(** X6.  What the [duration] setter accepts: an integer counts days
    and equals the keyword form [{"days": n}]; up to 999999999 days in
    either direction it stores the span of that many days, beyond that
    it raises [OverflowError]; [None] stores [None] and keeps a stored
    due time; a mapping with a keyword that [timedelta] does not know,
    and a string, raise [TypeError]. *)
Theorem duration_setter_coercions (t : Todo) :
  (forall n, duration_setter t (PDict {[ "days" := n ]}) = duration_setter t (PInt n)) /\
  (forall n, -999999999 <= n <= 999999999 ->
             duration_setter t (PInt n)
             = duration_setter t (PTimedelta (86400000000 * n))) /\
  (forall n, n < -999999999 \/ 999999999 < n ->
             duration_setter t (PInt n) = Raise OverflowError) /\
  duration_setter t PNone = Ok (with_duration None t) /\
  (forall kw k v, kw !! k = Some v -> timedelta_unit k = None ->
                  duration_setter t (PDict kw) = Raise TypeError) /\
  (forall s, duration_setter t (PStr s) = Raise TypeError).
Proof.
  split; [|split; [|split; [|split; [|split]]]].
  - intros n. unfold duration_setter, timedelta_kwargs, timedelta_sum.
    rewrite map_fold_singleton. reflexivity.
  - intros n Hn. unfold duration_setter, timedelta_days, timedelta_new,
      timedelta_min, timedelta_max.
    destruct (Z.leb_spec (-86399999913600000000) (86400000000 * n)); [|lia].
    destruct (Z.leb_spec (86400000000 * n) 86399999999999999999); [|lia].
    reflexivity.
  - intros n Hn. unfold duration_setter, timedelta_days, timedelta_new,
      timedelta_min, timedelta_max.
    destruct (Z.leb_spec (-86399999913600000000) (86400000000 * n));
      destruct (Z.leb_spec (86400000000 * n) 86399999999999999999);
      try reflexivity; lia.
  - reflexivity.
  - intros kw k v Hk Hu. unfold duration_setter, timedelta_kwargs.
    destruct (timedelta_sum_outcome kw) as [Herr Hok].
    destruct (timedelta_sum kw) as [a|e] eqn:Hkw; simpl.
    + exfalso. apply (proj1 Hok eq_refl k v Hk). exact Hu.
    + rewrite (Herr e eq_refl). reflexivity.
  - intros s. reflexivity.
Qed.

Lemma duration_setter_coercions_witness :
  duration_setter fresh (PDict {[ "fortnights" := 2 ]}) = Raise TypeError /\
  duration_setter fresh (PInt 1000000000) = Raise OverflowError /\
  duration_setter fresh (PInt 2) = duration_setter fresh (PTimedelta (86400000000 * 2)).
Proof.
  destruct (duration_setter_coercions fresh) as (_ & Hdays & Hover & _ & Hkw & _).
  split; [|split].
  - apply (Hkw {[ "fortnights" := 2 ]} "fortnights" 2);
      [apply lookup_singleton_eq | reflexivity].
  - apply Hover. right. lia.
  - apply Hdays. lia.
Defined.

(** ** Construction *)

(** X7.  [Todo(begin=b, duration=d)] with a span [d] that is not zero,
    a sum [b + d] inside the datetime range and no due succeeds (the
    coercions of [completed] and [created] permitting); the entity
    reads back [begin = b], [duration = d] and [due = b + d], and stores
    no due time. *)
Theorem init_begin_duration_roundtrip `{Codecs}
    (a : init_args) (b d : Z) (c1 c2 : option Z) :
  a_begin a = PArrow b -> a_duration a = PTimedelta d -> d <> 0 ->
  in_datetime_range (b + d) = true ->
  truthy (a_due a) = false ->
  get_arrow (a_completed a) = Ok c1 -> get_arrow (a_created a) = Ok c2 ->
  exists t, __init__ a = Ok t /\ begin t = Some b /\ _due_time t = None /\
            duration t = Ok (Some d) /\ due t = Ok (Some (b + d)).
Proof.
  intros Hb Hk Hd Hin Hdue Hc1 Hc2.
  unfold __init__, begin_setter, duration_setter.
  rewrite Hc1, Hc2, Hb, Hk, Hdue. simpl.
  destruct (Z.eqb_spec d 0) as [|_]; [contradiction|]. simpl.
  eexists. split; [reflexivity|].
  unfold duration, due, begin.
  destruct (a_alarms a); simpl;
    (destruct (Z.eqb_spec d 0) as [|_]; [contradiction|]); simpl;
    rewrite Hin; repeat split; reflexivity.
Qed.

Lemma init_begin_duration_roundtrip_witness :
  exists t, @__init__ toy_codecs
              (args_begin_due_duration (PArrow 10) PNone (PTimedelta 5)) = Ok t /\
            begin t = Some 10 /\ _due_time t = None /\
            duration t = Ok (Some 5) /\ due t = Ok (Some (10 + 5)).
Proof.
  assert (Hnz : 5 <> 0) by discriminate.
  apply (@init_begin_duration_roundtrip toy_codecs
           (args_begin_due_duration (PArrow 10) PNone (PTimedelta 5)) 10 5 None None);
    [reflexivity | reflexivity | exact Hnz | reflexivity | reflexivity
     | reflexivity | reflexivity].
Defined.

(** X8.  [Todo(begin=b, due=d)] with [d] strictly before [b] raises
    [ValueError]: the constructor assigns [begin] first and then goes
    through the [due] setter. *)
Theorem init_rejects_due_before_begin `{Codecs}
    (a : init_args) (b d : Z) (c1 c2 : option Z) :
  a_begin a = PArrow b -> a_due a = PArrow d -> truthy (a_duration a) = false ->
  get_arrow (a_completed a) = Ok c1 -> get_arrow (a_created a) = Ok c2 ->
  d < b ->
  __init__ a = Raise ValueError.
Proof.
  intros Hb Hd Hk Hc1 Hc2 Hlt.
  unfold __init__, begin_setter, due_setter.
  rewrite Hc1, Hc2, Hb, Hd, Hk. simpl.
  unfold arrow_lt, arrow_cmp.
  destruct (Z.ltb_spec d b) as [_|Hge]; [reflexivity | lia].
Qed.

Lemma init_rejects_due_before_begin_witness :
  @__init__ toy_codecs (args_begin_due (PArrow 10) (PArrow 5)) = Raise ValueError.
Proof.
  apply (@init_rejects_due_before_begin toy_codecs
           (args_begin_due (PArrow 10) (PArrow 5)) 10 5 None None);
    [reflexivity | reflexivity | reflexivity | reflexivity | reflexivity | lia].
Defined.

(** X9.  A successful constructor call stores the plain arguments as
    they are given: [percent] and [priority] are not range-checked
    (unlike in the extraction handlers), an empty or absent [uid] is
    replaced by a generated one, and the entity starts with an empty
    VTODO container of unused lines.  Its alarms are the set of the
    alarms of the call: the same members, each once. *)
Theorem init_stores_plain_arguments `{Codecs} (a : init_args) (t : Todo) :
  __init__ a = Ok t ->
  description t = a_description a /\ location t = a_location a /\
  percent t = a_percent a /\ priority t = a_priority a /\
  name t = a_name a /\ url t = a_url a /\
  uid t = SStr (match a_uid a with
                | Some s => if String.eqb s "" then uid_gen else s
                | None => uid_gen
                end) /\
  (forall x, x ∈ alarms t <-> x ∈ default [] (a_alarms a)) /\
  NoDup (alarms t) /\
  _unused t = mkContainer "VTODO" [] /\
  _classmethod_kwargs t = None.
Proof.
  unfold __init__. intros Hi.
  apply bind_ok in Hi as (c1 & _ & Hi).
  apply bind_ok in Hi as (c2 & _ & Hi).
  apply bind_ok in Hi as (t1 & Hb & Hi).
  apply bind_ok in Hi as (t2 & Hd & Hi).
  apply begin_setter_ok in Hb as (cv & _ & ->).
  assert (Ht2 : exists v1 v2 v3,
             t2 = with_due_time v1 (with_duration v2 (with_due_time v3
                    (with_unused (mkContainer "VTODO" [])
                       (with_alarms []
                          (with_url (a_url a)
                             (with_name (a_name a)
                                (with_priority (a_priority a)
                                   (with_percent (a_percent a)
                                      (with_location (a_location a)
                                         (with_begin cv
                                            (with_description (a_description a)
                                               (with_created c2
                                                  (with_completed c1
                                                     (with_uid
                                                        (SStr (if truthy_str (a_uid a)
                                                               then default "" (a_uid a)
                                                               else uid_gen))
                                                        fresh))))))))))))))).
  { destruct (truthy (a_duration a) && truthy (a_due a)); [discriminate Hd|].
    destruct (truthy (a_duration a)).
    - destruct (negb (truthy (a_begin a))); [discriminate Hd|].
      apply duration_setter_ok in Hd as (k & ->).
      destruct (truthy_td k).
      + exists None, k, None. reflexivity.
      + exists None, k, None. reflexivity.
    - destruct (truthy (a_due a)).
      + apply due_setter_ok in Hd as (x & _ & ->).
        destruct (truthy_arrow x).
        * exists x, None, x. reflexivity.
        * exists x, None, x. reflexivity.
      + injection Hd as <-. exists None, None, None. reflexivity. }
  destruct Ht2 as (v1 & v2 & v3 & ->). injection Hi as <-.
  assert (Huid : SStr (if truthy_str (a_uid a) then default "" (a_uid a) else uid_gen)
                 = SStr (match a_uid a with
                         | Some s => if String.eqb s "" then uid_gen else s
                         | None => uid_gen
                         end)).
  { destruct (a_uid a) as [s|]; simpl; [|reflexivity].
    destruct (String.eqb s ""); reflexivity. }
  destruct (a_alarms a) as [l|]; simpl.
  - do 6 (split; [reflexivity|]). split; [exact Huid|].
    split; [|split; [apply NoDup_elements | split; reflexivity]].
    intros x. rewrite elem_of_elements, elem_of_union, elem_of_list_to_set.
    split; [intros [Hx|Hx]; [|exact Hx] | auto].
    apply elem_of_empty in Hx. contradiction.
  - do 6 (split; [reflexivity|]). split; [exact Huid|].
    split; [reflexivity|]. split; [apply NoDup_nil_2 | split; reflexivity].
Qed.

Lemma init_stores_plain_arguments_witness :
  percent (with_percent (Some (SInt 500))
             (with_unused (mkContainer "VTODO" [])
                (with_uid (SStr "generated@host") fresh)))
  = Some (SInt 500) /\
  uid (with_percent (Some (SInt 500))
         (with_unused (mkContainer "VTODO" [])
            (with_uid (SStr "generated@host") fresh)))
  = SStr "generated@host".
Proof.
  destruct (@init_stores_plain_arguments toy_codecs
              (mkArgs None PNone PNone None PNone None (Some (SInt 500)) None None None
                      PNone PNone None)
              (with_percent (Some (SInt 500))
                 (with_unused (mkContainer "VTODO" [])
                    (with_uid (SStr "generated@host") fresh)))
              eq_refl) as (_ & _ & Hp & _ & _ & _ & Hu & _).
  split; [exact Hp | exact Hu].
Defined.

(** ** Interval tests *)

(** X10.  On a Todo argument [starts_within] fails only where the due
    of the other entity cannot be derived, and only when both begins
    are set (it then passes that error on); whenever it returns, it is
    true exactly when this entity has a begin, the other has a begin
    and a due, and [other.begin <= self.begin <= other.due]. *)
Theorem starts_within_spec (a b : Todo) :
  (forall r, due b = Ok r ->
     exists res, starts_within a (PTodo b) = Ok res /\
       (res = true <->
          exists x y z, begin a = Some x /\ begin b = Some y /\
                        r = Some z /\ y <= x <= z)) /\
  (forall e, due b = Raise e ->
     starts_within a (PTodo b)
     = (if truthy_arrow (begin a) && truthy_arrow (begin b) then Raise e
        else Ok false)).
Proof.
  unfold starts_within, begin. split.
  - intros r Hdb.
    destruct (_begin a) as [x|] eqn:Ha; simpl.
    2:{ exists false. split; [reflexivity|].
        split; [discriminate | intros (x & y & z & Hx & _); discriminate Hx]. }
    destruct (_begin b) as [y|] eqn:Hb; simpl.
    2:{ exists false. split; [reflexivity|].
        split; [discriminate | intros (x' & y & z & _ & Hy & _); discriminate Hy]. }
    rewrite Hdb. simpl. destruct r as [z|]; simpl.
    2:{ exists false. split; [reflexivity|].
        split; [discriminate | intros (x' & y' & z & _ & _ & Hz & _); discriminate Hz]. }
    destruct (Z.leb_spec y x) as [Hyx|Hyx]; simpl.
    + exists (x <=? z). split; [reflexivity|]. rewrite Z.leb_le. split.
      * intros Hxz. exists x, y, z. auto.
      * intros (x' & y' & z' & [= <-] & [= <-] & [= <-] & _ & Hxz). exact Hxz.
    + exists false. split; [reflexivity|]. split; [discriminate|].
      intros (x' & y' & z' & [= <-] & [= <-] & _ & Hle & _). lia.
  - intros e Hdb.
    destruct (_begin a) as [x|]; simpl; [|reflexivity].
    destruct (_begin b) as [y|]; simpl; [|reflexivity].
    rewrite Hdb. reflexivity.
Qed.

Lemma starts_within_spec_witness :
  exists res,
    starts_within (with_begin (Some 12) fresh)
                  (PTodo (with_due_time (Some 20) (with_begin (Some 10) fresh)))
    = Ok res /\
    (res = true <->
       exists x y z, begin (with_begin (Some 12) fresh) = Some x /\
                     begin (with_due_time (Some 20) (with_begin (Some 10) fresh)) = Some y /\
                     Some 20 = Some z /\ y <= x <= z).
Proof.
  apply (proj1 (starts_within_spec (with_begin (Some 12) fresh)
                  (with_due_time (Some 20) (with_begin (Some 10) fresh)))
           (Some 20)).
  reflexivity.
Defined.

Lemma starts_within_eval (a b : Todo) (x y z : Z) :
  begin a = Some x -> begin b = Some y -> due b = Ok (Some z) ->
  starts_within a (PTodo b) = Ok ((y <=? x) && (x <=? z)).
Proof.
  intros Ha Hb Hdb. unfold starts_within. rewrite Ha, Hb, Hdb. simpl.
  destruct (y <=? x); reflexivity.
Qed.

Lemma due_within_eval (a b : Todo) (x0 x y z : Z) :
  begin a = Some x0 -> due a = Ok (Some x) ->
  begin b = Some y -> due b = Ok (Some z) ->
  due_within a (PTodo b) = Ok ((y <=? x) && (x <=? z)).
Proof.
  intros Ha Hda Hb Hdb. unfold due_within. rewrite Ha, Hb, Hdb, Hda. simpl.
  destruct (y <=? x); reflexivity.
Qed.

(** X11.  For two entities that each have a begin and a due with
    [begin <= due], [intersects] returns, is symmetric, and is true
    exactly when the two closed intervals overlap. *)
Theorem intersects_is_interval_overlap (a b : Todo) (x1 x2 y1 y2 : Z) :
  begin a = Some x1 -> due a = Ok (Some x2) ->
  begin b = Some y1 -> due b = Ok (Some y2) ->
  x1 <= x2 -> y1 <= y2 ->
  exists r, intersects a (PTodo b) = Ok r /\
            intersects b (PTodo a) = Ok r /\
            (r = true <-> x1 <= y2 /\ y1 <= x2).
Proof.
  intros Ha Hda Hb Hdb Hx Hy.
  exists (((y1 <=? x1) && (x1 <=? y2)) || ((y1 <=? x2) && (x2 <=? y2))
          || ((x1 <=? y1) && (y1 <=? x2)) || ((x1 <=? y2) && (y2 <=? x2))).
  split; [|split].
  - unfold intersects.
    rewrite (starts_within_eval a b x1 y1 y2 Ha Hb Hdb),
            (due_within_eval a b x1 x2 y1 y2 Ha Hda Hb Hdb),
            (starts_within_eval b a y1 x1 x2 Hb Ha Hda),
            (due_within_eval b a y1 y2 x1 x2 Hb Hdb Ha Hda). simpl.
    destruct ((y1 <=? x1) && (x1 <=? y2)); [reflexivity|].
    destruct ((y1 <=? x2) && (x2 <=? y2)); [reflexivity|].
    destruct ((x1 <=? y1) && (y1 <=? x2)); reflexivity.
  - unfold intersects.
    rewrite (starts_within_eval a b x1 y1 y2 Ha Hb Hdb),
            (due_within_eval a b x1 x2 y1 y2 Ha Hda Hb Hdb),
            (starts_within_eval b a y1 x1 x2 Hb Ha Hda),
            (due_within_eval b a y1 y2 x1 x2 Hb Hdb Ha Hda). simpl.
    destruct ((y1 <=? x1) && (x1 <=? y2)), ((y1 <=? x2) && (x2 <=? y2)),
             ((x1 <=? y1) && (y1 <=? x2)), ((x1 <=? y2) && (y2 <=? x2)); reflexivity.
  - rewrite !orb_true_iff, !andb_true_iff, !Z.leb_le. lia.
Qed.

Lemma intersects_is_interval_overlap_witness :
  exists r,
    intersects (with_due_time (Some 20) (with_begin (Some 10) fresh))
               (PTodo (with_due_time (Some 25) (with_begin (Some 15) fresh))) = Ok r /\
    intersects (with_due_time (Some 25) (with_begin (Some 15) fresh))
               (PTodo (with_due_time (Some 20) (with_begin (Some 10) fresh))) = Ok r /\
    (r = true <-> 10 <= 25 /\ 15 <= 20).
Proof.
  apply (intersects_is_interval_overlap
           (with_due_time (Some 20) (with_begin (Some 10) fresh))
           (with_due_time (Some 25) (with_begin (Some 15) fresh)) 10 20 15 25);
    [reflexivity | reflexivity | reflexivity | reflexivity | lia | lia].
Defined.

(** X12.  Every comparison refuses a foreign type with
    [NotImplementedError]: the interval tests and (in)equality for an
    argument that is not a Todo, the four ordering operators for an
    argument that is neither a Todo nor a datetime. *)
Theorem comparisons_reject_foreign_types (a : Todo) (v : pyval) :
  (forall b, v <> PTodo b) ->
  starts_within a v = Raise NotImplementedError /\
  due_within a v = Raise NotImplementedError /\
  intersects a v = Raise NotImplementedError /\
  __eq__ a v = Raise NotImplementedError /\
  __ne__ a v = Raise NotImplementedError /\
  ((forall d, v <> PDatetime d) ->
   __lt__ a v = Raise NotImplementedError /\
   __le__ a v = Raise NotImplementedError /\
   __gt__ a v = Raise NotImplementedError /\
   __ge__ a v = Raise NotImplementedError).
Proof.
  intros Hv.
  destruct v; try (exfalso; eapply Hv; reflexivity);
    (do 5 (split; [reflexivity|])); intros Hd;
    try (exfalso; eapply Hd; reflexivity);
    (do 3 (split; [reflexivity|])); reflexivity.
Qed.

Lemma comparisons_reject_foreign_types_witness :
  starts_within fresh (PStr "2016-06-10") = Raise NotImplementedError /\
  __eq__ fresh (PStr "2016-06-10") = Raise NotImplementedError.
Proof.
  assert (Hv : forall b, PStr "2016-06-10" <> PTodo b) by discriminate.
  destruct (comparisons_reject_foreign_types fresh (PStr "2016-06-10") Hv)
    as (Hs & _ & _ & He & _).
  split; [exact Hs | exact He].
Defined.

(** ** Ordering and equality *)

(** X13.  When both entities have a due, the four ordering operators
    compare the two dues as integers order them, whatever the names
    are; in particular [a < b] is the negation of [a >= b] and [a > b]
    the negation of [a <= b]. *)
Theorem ordering_by_due (a b : Todo) (x y : Z) :
  due a = Ok (Some x) -> due b = Ok (Some y) ->
  __lt__ a (PTodo b) = Ok (x <? y) /\
  __le__ a (PTodo b) = Ok (x <=? y) /\
  __gt__ a (PTodo b) = Ok (y <? x) /\
  __ge__ a (PTodo b) = Ok (y <=? x) /\
  (x <? y) = negb (y <=? x) /\ (y <? x) = negb (x <=? y).
Proof.
  intros Ha Hb. unfold __lt__, __le__, __gt__, __ge__, both_due_none.
  rewrite Ha, Hb. simpl. rewrite Z.gtb_ltb, Z.geb_leb.
  repeat split; try reflexivity.
  - destruct (Z.ltb_spec x y), (Z.leb_spec y x); try reflexivity; lia.
  - destruct (Z.ltb_spec y x), (Z.leb_spec x y); try reflexivity; lia.
Qed.

Lemma ordering_by_due_witness :
  __lt__ (with_due_time (Some 5) fresh) (PTodo (with_due_time (Some 10) fresh))
  = Ok (5 <? 10) /\
  __ge__ (with_due_time (Some 5) fresh) (PTodo (with_due_time (Some 10) fresh))
  = Ok (10 <=? 5).
Proof.
  destruct (ordering_by_due (with_due_time (Some 5) fresh)
              (with_due_time (Some 10) fresh) 5 10 eq_refl eq_refl)
    as (Hlt & _ & _ & Hge & _).
  split; [exact Hlt | exact Hge].
Defined.



Lemma string_leb_ltb (x y : string) : String.leb x y = negb (String.ltb y x).
Proof.
  unfold String.leb, String.ltb. rewrite (String.compare_antisym y x).
  destruct (String.compare x y); reflexivity.
Qed.

Lemma string_ltb_irrefl (x : string) : String.ltb x x = false.
Proof.
  unfold String.ltb. pose proof (String.compare_antisym x x) as Hxx.
  destruct (String.compare x x); simpl in Hxx; [reflexivity | discriminate Hxx | reflexivity].
Qed.

(** X15.  On entities without a due, [<] and [<=] always return and
    order by name, the absent name before every name and two names as
    strings are ordered: an entity without a name is below every named
    one and not below another nameless one.  [a <= b] is the negation
    of [b < a], so [<=] is total; [<] is irreflexive and [<=]
    reflexive. *)
Theorem le_is_not_swapped_lt (a b : Todo) :
  due a = Ok None -> due b = Ok None ->
  __lt__ a (PTodo b)
  = Ok (match name a, name b with
        | None, None => false
        | None, Some _ => true
        | Some _, None => false
        | Some x, Some y => String.ltb x y
        end) /\
  __le__ a (PTodo b)
  = Ok (match name a, name b with
        | None, _ => true
        | Some _, None => false
        | Some x, Some y => String.leb x y
        end) /\
  (exists r, __lt__ b (PTodo a) = Ok r /\ __le__ a (PTodo b) = Ok (negb r)) /\
  __lt__ a (PTodo a) = Ok false /\ __le__ a (PTodo a) = Ok true.
Proof.
  intros Ha Hb. unfold __lt__, __le__, both_due_none. rewrite Ha, Hb. simpl.
  unfold str_lt, str_le, str_cmp.
  destruct (name a) as [x|], (name b) as [y|];
    (split; [reflexivity|]); (split; [reflexivity|]);
    (split; [eexists; split; [reflexivity|]|split]);
    rewrite ?string_leb_ltb, ?string_ltb_irrefl; reflexivity.
Qed.

Lemma le_is_not_swapped_lt_witness :
  __lt__ fresh (PTodo (with_name (Some "a") fresh)) = Ok true /\
  __lt__ (with_name (Some "a") fresh) (PTodo fresh) = Ok false /\
  __le__ (with_name (Some "a") fresh) (PTodo (with_name (Some "b") fresh))
  = Ok (String.leb "a" "b").
Proof.
  destruct (le_is_not_swapped_lt fresh (with_name (Some "a") fresh) eq_refl eq_refl)
    as (H1 & _).
  destruct (le_is_not_swapped_lt (with_name (Some "a") fresh) fresh eq_refl eq_refl)
    as (H2 & _).
  destruct (le_is_not_swapped_lt (with_name (Some "a") fresh)
              (with_name (Some "b") fresh) eq_refl eq_refl) as (_ & H3 & _).
  split; [exact H1|]. split; [exact H2 | exact H3].
Defined.

(** X16.  Equality looks at [uid] only: two Todos are equal exactly
    when their uids are, whatever the other fields hold, and unequal
    exactly when the uids differ; [!=] is the negation of [==]; and an
    entity stays equal to its former self under the three setters. *)
Theorem eq_by_uid_only `{Codecs} :
  (forall a b, __eq__ a (PTodo b) = Ok true <-> uid a = uid b) /\
  (forall a b, __eq__ a (PTodo b) = Ok false <-> uid a <> uid b) /\
  (forall a b, __ne__ a (PTodo b) = Ok true <-> uid a <> uid b) /\
  (forall a b, __ne__ a (PTodo b) = negb <$> __eq__ a (PTodo b)) /\
  (forall t t' v,
      begin_setter t v = Ok t' \/ due_setter t v = Ok t' \/ duration_setter t v = Ok t' ->
      __eq__ t' (PTodo t) = Ok true).
Proof.
  split; [|split; [|split; [|split]]].
  - intros a b. unfold __eq__. split.
    + intros [= Hab]. apply bool_decide_eq_true in Hab. exact Hab.
    + intros Hab. f_equal. apply bool_decide_eq_true. exact Hab.
  - intros a b. unfold __eq__. split.
    + intros [= Hab]. apply bool_decide_eq_false in Hab. exact Hab.
    + intros Hab. f_equal. apply bool_decide_eq_false. exact Hab.
  - intros a b. unfold __ne__. split.
    + intros [= Hab]. apply negb_true_iff, bool_decide_eq_false in Hab. exact Hab.
    + intros Hab. f_equal. apply negb_true_iff, bool_decide_eq_false. exact Hab.
  - intros a b. reflexivity.
  - intros t t' v Hset. unfold __eq__. f_equal. apply bool_decide_eq_true.
    destruct Hset as [Hs|[Hs|Hs]].
    + apply begin_setter_ok in Hs as (cv & _ & ->). reflexivity.
    + apply due_setter_ok in Hs as (cv & _ & ->). destruct (truthy_arrow cv); reflexivity.
    + apply duration_setter_ok in Hs as (cv & ->). destruct (truthy_td cv); reflexivity.
Qed.

Lemma eq_by_uid_only_witness :
  __eq__ (with_begin (Some 7) (with_name (Some "a") fresh))
         (PTodo (with_name (Some "a") fresh)) = Ok true /\
  __eq__ (with_uid (SStr "u1") fresh) (PTodo (with_uid (SStr "u2") fresh)) = Ok false /\
  __eq__ (with_name (Some "a") (with_uid (SStr "u1") fresh))
         (PTodo (with_name (Some "b") (with_uid (SStr "u1") fresh))) = Ok true.
Proof.
  destruct (@eq_by_uid_only toy_codecs) as (Heq & Hneq & _ & _ & Hset).
  split; [|split].
  - apply (Hset (with_name (Some "a") fresh)
             (with_begin (Some 7) (with_name (Some "a") fresh)) (PArrow 7)).
    left. reflexivity.
  - apply Hneq. discriminate.
  - apply Heq. reflexivity.
Defined.

(** X17.  [time_equals] is symmetric whenever both dues can be derived,
    and an entity is time-equal to itself exactly when it has a begin or
    a due. *)
Theorem time_equals_symmetric (a b : Todo) (da db : option Z) :
  due a = Ok da -> due b = Ok db ->
  time_equals a b = time_equals b a /\
  time_equals a a = Ok (truthy_arrow (begin a) || truthy_arrow da).
Proof.
  intros Ha Hb. unfold time_equals, begin. rewrite Ha, Hb.
  destruct (_begin a) as [x|], (_begin b) as [y|], da as [u|], db as [w|]; simpl;
    repeat case_bool_decide; simpl; split; try reflexivity; congruence.
Qed.

Lemma time_equals_symmetric_witness :
  time_equals (with_begin (Some 3) fresh) (with_due_time (Some 9) fresh)
  = time_equals (with_due_time (Some 9) fresh) (with_begin (Some 3) fresh) /\
  time_equals (with_begin (Some 3) fresh) (with_begin (Some 3) fresh)
  = Ok (truthy_arrow (begin (with_begin (Some 3) fresh)) || truthy_arrow None).
Proof.
  apply (time_equals_symmetric (with_begin (Some 3) fresh)
           (with_due_time (Some 9) fresh) None (Some 9)); reflexivity.
Defined.

(** ** The extraction handlers *)

(** X18.  On a line whose value is an integer [n], the PERCENT-COMPLETE
    handler stores [n] when [0 <= n <= 100] and raises [ValueError]
    otherwise, and the PRIORITY handler does the same for
    [0 <= n <= 9]; the bounds themselves are accepted. *)
Theorem percent_priority_range `{Codecs} (t : Todo) (l : ContentLine) (n : Z) :
  cl_value l = SInt n ->
  Inputs.percent t (Some l)
  = (if (0 <=? n) && (n <=? 100) then Ok (with_percent (Some (SInt n)) t)
     else Raise ValueError) /\
  Inputs.priority t (Some l)
  = (if (0 <=? n) && (n <=? 9) then Ok (with_priority (Some (SInt n)) t)
     else Raise ValueError).
Proof.
  intros Hn. unfold Inputs.percent, Inputs.priority. simpl. rewrite Hn. simpl.
  destruct (Z.ltb_spec n 0) as [Hlo|Hlo]; simpl.
  - destruct (Z.leb_spec 0 n) as [Hz|_]; [lia|]. split; reflexivity.
  - destruct (Z.leb_spec 0 n) as [_|Hz]; [|lia]. simpl. split.
    + destruct (Z.ltb_spec 100 n), (Z.leb_spec n 100); try lia; reflexivity.
    + destruct (Z.ltb_spec 9 n), (Z.leb_spec n 9); try lia; reflexivity.
Qed.

Lemma percent_priority_range_witness :
  (Inputs.percent fresh (Some (ContentLine_ "PERCENT-COMPLETE" (SInt 100)))
   = (if (0 <=? 100) && (100 <=? 100)
      then Ok (with_percent (Some (SInt 100)) fresh) else Raise ValueError)) /\
  (Inputs.priority fresh (Some (ContentLine_ "PERCENT-COMPLETE" (SInt 100)))
   = (if (0 <=? 100) && (100 <=? 9)
      then Ok (with_priority (Some (SInt 100)) fresh) else Raise ValueError)).
Proof.
  apply (@percent_priority_range toy_codecs fresh
           (ContentLine_ "PERCENT-COMPLETE" (SInt 100)) 100).
  reflexivity.
Defined.

(** X19.  The two handlers compare the value of the line with integer
    literals: on a line whose value is text, as the tokenizer delivers
    it, both raise [TypeError] and store nothing. *)
Theorem percent_priority_reject_text `{Codecs} (t : Todo) (l : ContentLine) (s : string) :
  cl_value l = SStr s ->
  Inputs.percent t (Some l) = Raise TypeError /\
  Inputs.priority t (Some l) = Raise TypeError.
Proof.
  intros Hs. unfold Inputs.percent, Inputs.priority. simpl. rewrite Hs.
  split; reflexivity.
Qed.

Lemma percent_priority_reject_text_witness :
  Inputs.percent fresh (Some (ContentLine_ "PERCENT-COMPLETE" (SStr "50")))
  = Raise TypeError /\
  Inputs.priority fresh (Some (ContentLine_ "PERCENT-COMPLETE" (SStr "50")))
  = Raise TypeError.
Proof.
  apply (@percent_priority_reject_text toy_codecs fresh
           (ContentLine_ "PERCENT-COMPLETE" (SStr "50")) "50").
  reflexivity.
Defined.

(** X20.  The DUE and the DURATION handler exclude each other: after
    the DUE handler has stored a due time, the DURATION handler raises
    [ValueError] on every line; after the DURATION handler has stored a
    span that is not zero, the DUE handler raises [ValueError] on every
    line. *)
Theorem due_duration_handlers_exclude `{Codecs} (t t' : Todo) (l1 l2 : ContentLine) :
  (Inputs.due t (Some l1) = Ok t' -> Inputs.duration t' (Some l2) = Raise ValueError) /\
  (Inputs.duration t (Some l2) = Ok t' -> truthy_td (_duration t') = true ->
   Inputs.due t' (Some l1) = Raise ValueError).
Proof.
  split.
  - unfold Inputs.due. intros Hd.
    destruct (truthy_td (_duration t)); [discriminate Hd|].
    apply bind_ok in Hd as (tz & _ & Hd). apply bind_ok in Hd as (x & _ & [= <-]).
    reflexivity.
  - intros _ Hk. unfold Inputs.due. rewrite Hk. reflexivity.
Qed.

Lemma due_duration_handlers_exclude_witness :
  @Inputs.duration toy_codecs
    (with_due_time (Some 30) (@blank toy_codecs {[ "tz" := ∅ ]}))
    (Some (ContentLine_ "DURATION" (SInt 5)))
  = Raise ValueError.
Proof.
  apply (proj1 (@due_duration_handlers_exclude toy_codecs
                  (@blank toy_codecs {[ "tz" := ∅ ]})
                  (with_due_time (Some 30) (@blank toy_codecs {[ "tz" := ∅ ]}))
                  (ContentLine_ "DUE" (SInt 30))
                  (ContentLine_ "DURATION" (SInt 5)))).
  reflexivity.
Defined.

(** ** Invariants *)

Lemma begin_before_due_time_init `{Codecs} (a : init_args) (t : Todo) :
  __init__ a = Ok t -> begin_before_due_time t.
Proof.
  unfold __init__. intros Hi.
  apply bind_ok in Hi as (c1 & _ & Hi).
  apply bind_ok in Hi as (c2 & _ & Hi).
  apply bind_ok in Hi as (t1 & Hb & Hi).
  apply bind_ok in Hi as (t2 & Hd & Hi).
  apply begin_setter_ok in Hb as (cv & _ & ->).
  assert (Ht2 : begin_before_due_time t2).
  { destruct (truthy (a_duration a) && truthy (a_due a)); [discriminate Hd|].
    destruct (truthy (a_duration a)).
    - destruct (negb (truthy (a_begin a))); [discriminate Hd|].
      apply duration_setter_ok in Hd as (k & ->).
      destruct (truthy_td k); intros b d Hb' Hd'; discriminate Hd'.
    - destruct (truthy (a_due a)).
      + unfold due_setter in Hd. apply bind_ok in Hd as (x & _ & Hd).
        apply bind_ok in Hd as (early & He & Hd).
        destruct early; [discriminate Hd|]. injection Hd as <-.
        destruct x as [x|]; simpl in *.
        * intros b d Hb' [= <-]. simpl in Hb'. rewrite Hb' in He. simpl in He.
          injection He as He. apply Z.ltb_ge in He. exact He.
        * intros b d _ Hd'. discriminate Hd'.
      + injection Hd as <-. intros b d _ Hd'. discriminate Hd'. }
  injection Hi as <-. destruct (a_alarms a); exact Ht2.
Qed.

(** X21.  Through the constructor, the setters and plain assignment
    alone, a stored begin is never after a stored due time: the two
    setters check each other's field.  The extraction handlers do not
    keep this: on a blank entity the DTSTART handler followed by the
    DUE handler stores whatever two instants the lines decode to, in
    either order. *)
Theorem accessible_begin_before_due_time `{Codecs} :
  (forall t, accessible t -> begin_before_due_time t) /\
  (forall (kw : gmap string tzdict) (tz : tzdict) (l1 l2 : ContentLine) (a d : Z),
      kw !! "tz" = Some tz ->
      iso_to_arrow l1 tz = Ok a -> iso_to_arrow l2 tz = Ok d ->
      (t ← Inputs.start (blank kw) (Some l1);
       t ← Inputs.due t (Some l2);
       Ok (_begin t, _due_time t))
      = Ok (Some a, Some d)).
Proof.
  split.
  - intros t Hacc.
    induction Hacc as [a t Hi|t v t' _ IH Hs|t v t' _ IH Hs|t v t' _ IH Hs|t a _ IH].
    + eapply begin_before_due_time_init. exact Hi.
    + unfold begin_setter in Hs. apply bind_ok in Hs as (cv & _ & Hs).
      apply bind_ok in Hs as (late & Hl & Hs).
      destruct late; [discriminate Hs|]. injection Hs as <-.
      intros b d Hb Hd. simpl in Hb, Hd. subst cv. rewrite Hd in Hl. simpl in Hl.
      injection Hl as Hl. rewrite Z.gtb_ltb in Hl. apply Z.ltb_ge in Hl. exact Hl.
    + unfold due_setter in Hs. apply bind_ok in Hs as (cv & _ & Hs).
      apply bind_ok in Hs as (early & He & Hs).
      destruct early; [discriminate Hs|]. injection Hs as <-.
      destruct cv as [x|]; simpl in *.
      * intros b d Hb [= <-]. simpl in Hb. rewrite Hb in He. simpl in He.
        injection He as He. apply Z.ltb_ge in He. exact He.
      * intros b d _ Hd. discriminate Hd.
    + apply duration_setter_ok in Hs as (k & ->).
      destruct (truthy_td k).
      * intros b d _ Hd. discriminate Hd.
      * exact IH.
    + destruct a; exact IH.
  - intros kw tz l1 l2 a d Htz Ha Hd.
    unfold Inputs.start, Inputs.due, classmethod_tz, begin_setter. simpl.
    rewrite Htz. simpl. rewrite Ha. simpl. rewrite Htz. simpl. rewrite Hd.
    reflexivity.
Qed.

Lemma accessible_begin_before_due_time_witness :
  begin_before_due_time
    (with_duration None (with_due_time (Some 20)
       (with_unused (mkContainer "VTODO" [])
          (with_begin (Some 10) (with_uid (SStr "generated@host") fresh))))) /\
  (t ← @Inputs.start toy_codecs (@blank toy_codecs {[ "tz" := ∅ ]})
         (Some (ContentLine_ "DTSTART" (SInt 30)));
   t ← @Inputs.due toy_codecs t (Some (ContentLine_ "DUE" (SInt 10)));
   Ok (_begin t, _due_time t))
  = Ok (Some 30, Some 10).
Proof.
  split.
  - apply (proj1 (@accessible_begin_before_due_time toy_codecs)).
    apply (@acc_init toy_codecs (args_begin_due (PArrow 10) (PArrow 20))).
    reflexivity.
  - apply (proj2 (@accessible_begin_before_due_time toy_codecs) {[ "tz" := ∅ ]} ∅);
      reflexivity.
Defined.

(** ** The output producers *)

Lemma append_tags (x : item) (c : Container) :
  omap line_tag (c_items (append x c)) = omap line_tag (c_items c) ++ omap line_tag [x].
Proof. unfold append. cbn [c_items]. apply omap_app. Qed.

Lemma append_texts (x : item) (c : Container) :
  omap item_text (c_items (append x c)) = omap item_text (c_items c) ++ omap item_text [x].
Proof. unfold append. cbn [c_items]. apply omap_app. Qed.

(** A producer of one optional line: it adds its tag once or not at
    all, and no plain text. *)
Ltac optional_line tag :=
  intros;
  repeat match goal with
         | |- context [match ?x with _ => _ end] => destruct x
         end;
  first [ exists true; rewrite append_tags, append_texts; simpl;
          rewrite ?app_nil_r; repeat split; reflexivity
        | exists false; simpl; rewrite ?app_nil_r; repeat split; reflexivity ].

Lemma o_uid_shape `{Codecs} (t : Todo) (c : Container) :
  omap line_tag (c_items (Outputs.o_uid t c)) = omap line_tag (c_items c) ++ ["UID"] /\
  omap item_text (c_items (Outputs.o_uid t c)) = omap item_text (c_items c) /\
  c_name (Outputs.o_uid t c) = c_name c.
Proof.
  unfold Outputs.o_uid. rewrite append_tags, append_texts. simpl.
  rewrite app_nil_r. repeat split; reflexivity.
Qed.

Lemma o_completed_shape `{Codecs} (t : Todo) (c : Container) :
  omap line_tag (c_items (Outputs.o_completed t c))
  = omap line_tag (c_items c) ++ ["COMPLETED"] /\
  omap item_text (c_items (Outputs.o_completed t c)) = omap item_text (c_items c) /\
  c_name (Outputs.o_completed t c) = c_name c.
Proof.
  unfold Outputs.o_completed. rewrite append_tags, append_texts. simpl.
  rewrite app_nil_r. repeat split; reflexivity.
Qed.

Lemma o_created_shape `{Codecs} (t : Todo) (c : Container) :
  omap line_tag (c_items (Outputs.o_created t c))
  = omap line_tag (c_items c) ++ ["DTSTAMP"] /\
  omap item_text (c_items (Outputs.o_created t c)) = omap item_text (c_items c) /\
  c_name (Outputs.o_created t c) = c_name c.
Proof.
  unfold Outputs.o_created. rewrite append_tags, append_texts. simpl.
  rewrite app_nil_r. repeat split; reflexivity.
Qed.

Lemma o_description_shape `{Codecs} (t : Todo) (c : Container) :
  exists p : bool,
    omap line_tag (c_items (Outputs.o_description t c))
    = omap line_tag (c_items c) ++ (if p then ["DESCRIPTION"] else []) /\
    omap item_text (c_items (Outputs.o_description t c)) = omap item_text (c_items c) /\
    c_name (Outputs.o_description t c) = c_name c.
Proof. unfold Outputs.o_description. optional_line "DESCRIPTION". Qed.

Lemma o_start_shape `{Codecs} (t : Todo) (c : Container) :
  exists p : bool,
    omap line_tag (c_items (Outputs.o_start t c))
    = omap line_tag (c_items c) ++ (if p then ["DTSTART"] else []) /\
    omap item_text (c_items (Outputs.o_start t c)) = omap item_text (c_items c) /\
    c_name (Outputs.o_start t c) = c_name c.
Proof. unfold Outputs.o_start. optional_line "DTSTART". Qed.

Lemma o_location_shape `{Codecs} (t : Todo) (c : Container) :
  exists p : bool,
    omap line_tag (c_items (Outputs.o_location t c))
    = omap line_tag (c_items c) ++ (if p then ["LOCATION"] else []) /\
    omap item_text (c_items (Outputs.o_location t c)) = omap item_text (c_items c) /\
    c_name (Outputs.o_location t c) = c_name c.
Proof. unfold Outputs.o_location. optional_line "LOCATION". Qed.

Lemma o_percent_shape (t : Todo) (c : Container) :
  exists p : bool,
    omap line_tag (c_items (Outputs.o_percent t c))
    = omap line_tag (c_items c) ++ (if p then ["PERCENT-COMPLETE"] else []) /\
    omap item_text (c_items (Outputs.o_percent t c)) = omap item_text (c_items c) /\
    c_name (Outputs.o_percent t c) = c_name c.
Proof. unfold Outputs.o_percent. optional_line "PERCENT-COMPLETE". Qed.

Lemma o_priority_shape (t : Todo) (c : Container) :
  exists p : bool,
    omap line_tag (c_items (Outputs.o_priority t c))
    = omap line_tag (c_items c) ++ (if p then ["PRIORITY"] else []) /\
    omap item_text (c_items (Outputs.o_priority t c)) = omap item_text (c_items c) /\
    c_name (Outputs.o_priority t c) = c_name c.
Proof. unfold Outputs.o_priority. optional_line "PRIORITY". Qed.

Lemma o_summary_shape `{Codecs} (t : Todo) (c : Container) :
  exists p : bool,
    omap line_tag (c_items (Outputs.o_summary t c))
    = omap line_tag (c_items c) ++ (if p then ["SUMMARY"] else []) /\
    omap item_text (c_items (Outputs.o_summary t c)) = omap item_text (c_items c) /\
    c_name (Outputs.o_summary t c) = c_name c.
Proof. unfold Outputs.o_summary. optional_line "SUMMARY". Qed.

Lemma o_url_shape `{Codecs} (t : Todo) (c : Container) :
  exists p : bool,
    omap line_tag (c_items (Outputs.o_url t c))
    = omap line_tag (c_items c) ++ (if p then ["URL"] else []) /\
    omap item_text (c_items (Outputs.o_url t c)) = omap item_text (c_items c) /\
    c_name (Outputs.o_url t c) = c_name c.
Proof. unfold Outputs.o_url. optional_line "URL". Qed.

Lemma o_due_shape `{Codecs} (t : Todo) (c : Container) :
  exists p : bool,
    omap line_tag (c_items (Outputs.o_due t c))
    = omap line_tag (c_items c) ++ (if p then ["DUE"] else []) /\
    omap item_text (c_items (Outputs.o_due t c)) = omap item_text (c_items c) /\
    c_name (Outputs.o_due t c) = c_name c.
Proof. unfold Outputs.o_due. optional_line "DUE". Qed.

Lemma o_duration_shape `{Codecs} (t : Todo) (c : Container) :
  exists p : bool,
    omap line_tag (c_items (Outputs.o_duration t c))
    = omap line_tag (c_items c) ++ (if p then ["DURATION"] else []) /\
    omap item_text (c_items (Outputs.o_duration t c)) = omap item_text (c_items c) /\
    c_name (Outputs.o_duration t c) = c_name c.
Proof. unfold Outputs.o_duration. optional_line "DURATION". Qed.

Lemma o_alarm_shape (t : Todo) (c : Container) :
  omap line_tag (c_items (Outputs.o_alarm t c)) = omap line_tag (c_items c) /\
  omap item_text (c_items (Outputs.o_alarm t c))
  = omap item_text (c_items c) ++ map alarm_str (alarms t) /\
  c_name (Outputs.o_alarm t c) = c_name c.
Proof.
  unfold Outputs.o_alarm. generalize c. clear c.
  induction (alarms t) as [|a l IH]; intros c; simpl.
  - rewrite app_nil_r. repeat split; reflexivity.
  - destruct (IH (append (IText (alarm_str a)) c)) as (Htag & Htxt & Hname).
    rewrite Htag, Htxt, Hname, append_tags, append_texts. simpl.
    rewrite app_nil_r, <- app_assoc. repeat split; reflexivity.
Qed.

(** X22.  The produced container is named VTODO; its property lines
    always start with UID, COMPLETED and DTSTAMP, in this order, and go
    on with a subsequence of DESCRIPTION, DTSTART, LOCATION,
    PERCENT-COMPLETE, PRIORITY, SUMMARY, URL, DUE, DURATION, so that
    no tag occurs twice; its plain-text items are the renderings of
    the alarms, in the order of the alarm collection. *)
Theorem produced_layout `{Codecs} (t : Todo) :
  c_name (produced t) = "VTODO" /\
  (exists rest,
      omap line_tag (c_items (produced t)) = ["UID"; "COMPLETED"; "DTSTAMP"] ++ rest /\
      rest `sublist_of` ["DESCRIPTION"; "DTSTART"; "LOCATION"; "PERCENT-COMPLETE";
                         "PRIORITY"; "SUMMARY"; "URL"; "DUE"; "DURATION"]) /\
  omap item_text (c_items (produced t)) = map alarm_str (alarms t).
Proof.
  unfold produced, Outputs._OUTPUTS. simpl foldl.
  set (c0 := mkContainer "VTODO" []).
  destruct (o_uid_shape t c0) as (Hg1 & Hx1 & Hn1).
  set (c1 := Outputs.o_uid t c0) in *.
  destruct (o_completed_shape t c1) as (Hg2 & Hx2 & Hn2).
  set (c2 := Outputs.o_completed t c1) in *.
  destruct (o_created_shape t c2) as (Hg3 & Hx3 & Hn3).
  set (c3 := Outputs.o_created t c2) in *.
  destruct (o_description_shape t c3) as (p4 & Hg4 & Hx4 & Hn4).
  set (c4 := Outputs.o_description t c3) in *.
  destruct (o_start_shape t c4) as (p5 & Hg5 & Hx5 & Hn5).
  set (c5 := Outputs.o_start t c4) in *.
  destruct (o_location_shape t c5) as (p6 & Hg6 & Hx6 & Hn6).
  set (c6 := Outputs.o_location t c5) in *.
  destruct (o_percent_shape t c6) as (p7 & Hg7 & Hx7 & Hn7).
  set (c7 := Outputs.o_percent t c6) in *.
  destruct (o_priority_shape t c7) as (p8 & Hg8 & Hx8 & Hn8).
  set (c8 := Outputs.o_priority t c7) in *.
  destruct (o_summary_shape t c8) as (p9 & Hg9 & Hx9 & Hn9).
  set (c9 := Outputs.o_summary t c8) in *.
  destruct (o_url_shape t c9) as (p10 & Hg10 & Hx10 & Hn10).
  set (c10 := Outputs.o_url t c9) in *.
  destruct (o_due_shape t c10) as (p11 & Hg11 & Hx11 & Hn11).
  set (c11 := Outputs.o_due t c10) in *.
  destruct (o_duration_shape t c11) as (p12 & Hg12 & Hx12 & Hn12).
  set (c12 := Outputs.o_duration t c11) in *.
  destruct (o_alarm_shape t c12) as (Hg13 & Hx13 & Hn13).
  split; [|split].
  - rewrite Hn13, Hn12, Hn11, Hn10, Hn9, Hn8, Hn7, Hn6, Hn5, Hn4, Hn3, Hn2, Hn1.
    reflexivity.
  - exists ((if p4 then ["DESCRIPTION"] else []) ++ (if p5 then ["DTSTART"] else [])
            ++ (if p6 then ["LOCATION"] else []) ++ (if p7 then ["PERCENT-COMPLETE"] else [])
            ++ (if p8 then ["PRIORITY"] else []) ++ (if p9 then ["SUMMARY"] else [])
            ++ (if p10 then ["URL"] else []) ++ (if p11 then ["DUE"] else [])
            ++ (if p12 then ["DURATION"] else [])).
    split.
    + rewrite Hg13, Hg12, Hg11, Hg10, Hg9, Hg8, Hg7, Hg6, Hg5, Hg4, Hg3, Hg2, Hg1.
      simpl. rewrite <- !app_assoc. reflexivity.
    + assert (Hpiece : forall (p : bool) (tag : string),
                 (if p then [tag] else []) `sublist_of` [tag]).
      { intros [] tag; [reflexivity | apply sublist_nil_l]. }
      change ["DESCRIPTION"; "DTSTART"; "LOCATION"; "PERCENT-COMPLETE";
              "PRIORITY"; "SUMMARY"; "URL"; "DUE"; "DURATION"]
        with (["DESCRIPTION"] ++ ["DTSTART"] ++ ["LOCATION"] ++ ["PERCENT-COMPLETE"]
              ++ ["PRIORITY"] ++ ["SUMMARY"] ++ ["URL"] ++ ["DUE"] ++ ["DURATION"]).
      do 8 (apply sublist_app; [apply Hpiece|]). apply Hpiece.
  - rewrite Hx13, Hx12, Hx11, Hx10, Hx9, Hx8, Hx7, Hx6, Hx5, Hx4, Hx3, Hx2, Hx1.
    reflexivity.
Qed.

Lemma foldl_producers_extend (t : Todo) (os : list (Todo -> Container -> Container)) :
  Forall (fun o => forall c, exists piece, c_items (o t c) = c_items c ++ piece) os ->
  forall c, exists rest, c_items (foldl (fun c o => o t c) c os) = c_items c ++ rest.
Proof.
  induction 1 as [|o os Ho _ IH]; intros c; simpl.
  - exists []. rewrite app_nil_r. reflexivity.
  - destruct (Ho c) as [piece Hpiece]. destruct (IH (o t c)) as [rest Hrest].
    exists (piece ++ rest). rewrite Hrest, Hpiece, app_assoc. reflexivity.
Qed.

Lemma o_alarm_extends (t : Todo) (c : Container) :
  exists piece, c_items (Outputs.o_alarm t c) = c_items c ++ piece.
Proof.
  unfold Outputs.o_alarm. generalize c. clear c.
  induction (alarms t) as [|a l IH]; intros c; simpl.
  - exists []. rewrite app_nil_r. reflexivity.
  - destruct (IH (append (IText (alarm_str a)) c)) as [piece Hpiece].
    exists ([IText (alarm_str a)] ++ piece). rewrite Hpiece. simpl.
    rewrite <- app_assoc. reflexivity.
Qed.

Ltac producer_extends :=
  intros;
  repeat match goal with
         | |- context [match ?x with _ => _ end] => destruct x
         end;
  first [ eexists; unfold append; cbn [c_items]; reflexivity
        | exists []; rewrite app_nil_r; reflexivity ].

(** X23.  Every serialization opens with the same three lines: UID
    with the entity's uid (a generated one when the uid is empty),
    COMPLETED with the completion instant and DTSTAMP with the creation
    instant; an entity that has no [completed] (or no [created]) is
    written with the current instant in its place. *)
Theorem produced_opening_lines `{Codecs} (t : Todo) :
  exists rest,
    c_items (produced t)
    = ILine (ContentLine_ "UID"
               (if truthy_scalar (Some (uid t)) then uid t else SStr uid_gen))
      :: ILine (ContentLine_ "COMPLETED"
                  (SStr (arrow_to_iso (default now (completed t)))))
      :: ILine (ContentLine_ "DTSTAMP"
                  (SStr (arrow_to_iso (default now (created t)))))
      :: rest.
Proof.
  unfold produced, Outputs._OUTPUTS. cbn [foldl].
  set (c3 := Outputs.o_created t (Outputs.o_completed t
               (Outputs.o_uid t (mkContainer "VTODO" [])))).
  destruct (foldl_producers_extend t
              [Outputs.o_description; Outputs.o_start; Outputs.o_location;
               Outputs.o_percent; Outputs.o_priority; Outputs.o_summary;
               Outputs.o_url; Outputs.o_due; Outputs.o_duration; Outputs.o_alarm])
    with (c := c3) as [rest Hrest].
  { repeat first [apply Forall_nil_2 | apply Forall_cons_2];
      try (apply o_alarm_extends);
      unfold Outputs.o_description, Outputs.o_start, Outputs.o_location,
        Outputs.o_percent, Outputs.o_priority, Outputs.o_summary, Outputs.o_url,
        Outputs.o_due, Outputs.o_duration; producer_extends. }
  cbn [foldl] in Hrest. exists rest. rewrite Hrest. subst c3.
  unfold Outputs.o_created, Outputs.o_completed, Outputs.o_uid, append. cbn [c_items].
  destruct (completed t), (created t); reflexivity.
Qed.

(** ** The time model on reachable entities *)

(** X24.  On every reachable entity the explicit due time and the
    stored duration are not both set, unless the stored duration is the
    zero span; and the produced lines never hold a DUE line together
    with a DURATION line. *)
Theorem reachable_time_model `{Codecs} (t : Todo) :
  reachable t ->
  (at_most_one t \/ _duration t = Some 0) /\
  (count_tag "DUE" (produced t) + count_tag "DURATION" (produced t) <= 1)%nat.
Proof.
  intros Hr. split.
  - apply reachable_at_most_one_or_zero. exact Hr.
  - destruct (produced_not_both t Hr) as [Hz|Hz]; rewrite Hz.
    + destruct (produced_counts t) as [_ ->].
      destruct (truthy_td (_duration t) && truthy_arrow (begin t)); simpl; lia.
    + destruct (produced_counts t) as [-> _].
      destruct (truthy_arrow (_due_time t)); simpl; lia.
Qed.

Lemma reachable_time_model_witness :
  (at_most_one (with_due_time (Some 30) (@blank toy_codecs {[ "tz" := ∅ ]})) \/
   _duration (with_due_time (Some 30) (@blank toy_codecs {[ "tz" := ∅ ]})) = Some 0) /\
  le (Nat.add
        (count_tag "DUE"
           (@produced toy_codecs
              (with_due_time (Some 30) (@blank toy_codecs {[ "tz" := ∅ ]}))))
        (count_tag "DURATION"
           (@produced toy_codecs
              (with_due_time (Some 30) (@blank toy_codecs {[ "tz" := ∅ ]})))))
     1%nat.
Proof.
  apply (@reachable_time_model toy_codecs).
  apply (@reach_step toy_codecs (@blank toy_codecs {[ "tz" := ∅ ]}));
    [apply (@blank_reachable toy_codecs)|].
  apply (@step_extract toy_codecs _
           (mkExtractor "DUE" false (Single (@Inputs.due toy_codecs)))
           (mkContainer "VTODO" [ILine (ContentLine_ "DUE" (SInt 30))]));
    [|reflexivity].
  unfold Inputs._EXTRACTORS. rewrite !elem_of_cons. tauto.
Defined.

(** X25.  On an entity with a begin the [duration] getter always
    returns, and the two getters agree wherever the due can be derived:
    the duration is absent exactly when the due is, and otherwise it is
    [due - begin].  The due getter fails on such an entity only by
    overflow, and the duration getter then returns the stored span. *)
Theorem getters_agree_with_begin (t : Todo) (b : Z) :
  _begin t = Some b ->
  (exists k, duration t = Ok k) /\
  (forall r, due t = Ok r -> duration t = Ok ((fun x => x - b) <$> r)) /\
  (forall e, due t = Raise e -> e = OverflowError /\ duration t = Ok (_duration t)).
Proof.
  intros Hb. unfold duration, due, begin. rewrite Hb.
  destruct (_duration t) as [k|]; simpl.
  - destruct (Z.eqb_spec k 0) as [->|Hk]; simpl.
    + destruct (_due_time t) as [x|]; simpl.
      * split; [eexists; reflexivity|].
        split; [intros r [= <-]; reflexivity | intros e He; discriminate He].
      * split; [eexists; reflexivity|].
        split; [intros r [= <-]; reflexivity | intros e He; discriminate He].
    + split; [eexists; reflexivity|].
      destruct (in_datetime_range (b + k)); simpl.
      * split; [|intros e He; discriminate He].
        intros r [= <-]. simpl. f_equal. f_equal. lia.
      * split; [intros r Hr; discriminate Hr|].
        intros e [= <-]. split; reflexivity.
  - destruct (_due_time t) as [x|]; simpl.
    + split; [eexists; reflexivity|].
      split; [intros r [= <-]; reflexivity | intros e He; discriminate He].
    + split; [eexists; reflexivity|].
      split; [intros r [= <-]; reflexivity | intros e He; discriminate He].
Qed.

Lemma getters_agree_with_begin_witness :
  duration (with_duration (Some 5) (with_begin (Some 10) fresh))
  = Ok ((fun x => x - 10) <$> Some (10 + 5)).
Proof.
  apply (proj1 (proj2 (getters_agree_with_begin
                         (with_duration (Some 5) (with_begin (Some 10) fresh)) 10 eq_refl))).
  reflexivity.
Defined.

(** X26.  The constructor refuses a truthy duration together with a
    truthy due, and a truthy duration with a falsy begin: no entity is
    built, and the error is [ValueError] whenever the coercions of
    [completed], [created] and [begin] succeed. *)
Theorem init_rejects_contradictory_arguments `{Codecs} (a : init_args) :
  truthy (a_duration a) = true ->
  truthy (a_due a) = true \/ truthy (a_begin a) = false ->
  raises (__init__ a) /\
  (is_ok (get_arrow (a_completed a)) = true ->
   is_ok (get_arrow (a_created a)) = true ->
   is_ok (get_arrow (a_begin a)) = true ->
   __init__ a = Raise ValueError).
Proof.
  intros Hk Hor.
  assert (Hcheck : forall self : Todo,
             (if truthy (a_duration a) && truthy (a_due a) then Raise ValueError
              else if truthy (a_duration a) then
                     if negb (truthy (a_begin a)) then Raise ValueError
                     else duration_setter self (a_duration a)
                   else if truthy (a_due a) then due_setter self (a_due a)
                        else Ok self) = Raise ValueError).
  { intros self. rewrite Hk. simpl.
    destruct (truthy (a_due a)); [reflexivity|].
    destruct Hor as [Hd|Hb]; [discriminate Hd|]. rewrite Hb. reflexivity. }
  unfold __init__. split.
  - do 3 (apply raises_bind_r; intros ?). rewrite Hcheck. eexists. reflexivity.
  - intros H1 H2 H3.
    destruct (get_arrow (a_completed a)); [|discriminate H1].
    destruct (get_arrow (a_created a)); [|discriminate H2]. simpl.
    unfold begin_setter.
    destruct (get_arrow (a_begin a)) as [cv|]; [|discriminate H3]. simpl.
    destruct cv; simpl; rewrite Hcheck; reflexivity.
Qed.

Lemma init_rejects_contradictory_arguments_witness :
  @__init__ toy_codecs (args_begin_due_duration (PInt 0) PNone (PTimedelta 5))
  = Raise ValueError.
Proof.
  apply (@init_rejects_contradictory_arguments toy_codecs
           (args_begin_due_duration (PInt 0) PNone (PTimedelta 5)));
    [reflexivity | right; reflexivity | reflexivity | reflexivity | reflexivity].
Defined.
